(** * VisionFen: the capture component of src/components/vision-fen.tsx

    A shallow embedding of the React component [VisionFen]: its five
    [useState] cells, its four [useRef] cells, the part of the browser it
    talks to (media streams, the Cropper.js instances, toasts, the clipboard,
    the network) and its event handlers, written as state transformers that
    follow the source statement by statement. *)

From Stdlib Require Import ZArith String List Bool Lia.
From Stdlib Require Import QArith Qcanon Qround.
From stdpp Require Import base option list.
Import ListNotations.
Local Open Scope string_scope.

(** ** Data *)

(** [enum AppState] (lines 19-26). *)
Module AppState.
Inductive t := Idle | CameraOpen | ImageCaptured | Loading | FenReceived | Error.

Definition eqb (a b : t) : bool :=
  match a, b with
  | Idle, Idle | CameraOpen, CameraOpen | ImageCaptured, ImageCaptured
  | Loading, Loading | FenReceived, FenReceived | Error, Error => true
  | _, _ => false
  end.
End AppState.

(** A value produced by [JSON.parse]; numbers are kept as integers, objects
    as the list of their own properties. *)
#[local] Unset Elimination Schemes.
Inductive JSON :=
| JNull
| JBool (b : bool)
| JNum (n : Z)
| JStr (s : string)
| JArr (items : list JSON)
| JObj (fields : list (string * JSON)).
#[local] Set Elimination Schemes.

(** A JavaScript string is truthy unless it is empty. *)
Definition truthy_string (s : string) : bool :=
  match s with EmptyString => false | _ => true end.

(** JavaScript truthiness of a parsed value ([if (v)]). *)
Definition truthy (v : JSON) : bool :=
  match v with
  | JNull => false
  | JBool b => b
  | JNum n => negb (n =? 0)%Z
  | JStr s => truthy_string s
  | JArr _ | JObj _ => true
  end.

Fixpoint lookup_field (key : string) (fields : list (string * JSON)) : option JSON :=
  match fields with
  | [] => None
  | (k, v) :: rest => if String.eqb k key then Some v else lookup_field key rest
  end.

(** Outcome of the property read [result.key]: a read on [null] throws a
    TypeError, a missing property is [undefined] ([Value None]). *)
Inductive PropertyRead :=
| Thrown
| Value (v : option JSON).

Definition get_property (result : JSON) (key : string) : PropertyRead :=
  match result with
  | JNull => Thrown
  | JObj fields => Value (lookup_field key fields)
  | JBool _ | JNum _ | JStr _ | JArr _ => Value None
  end.

(** A [MediaStream] is the list of its tracks, each live or ended. *)
Inductive TrackState := Live | Ended.
Definition MediaStream := list TrackState.

Definition is_live (t : TrackState) : bool :=
  match t with Live => true | Ended => false end.

(** [stream.getTracks().forEach((track) => track.stop())]. *)
Definition stopTracks (ms : MediaStream) : MediaStream := map (fun _ => Ended) ms.

(** The number of tracks of a stream that are still running. *)
Definition running (ms : MediaStream) : nat := length (List.filter is_live ms).

(** The [<video>] element: only its [srcObject] matters, a stream
    identified by its index in the browser's table of streams. *)
Record HTMLVideoElement := { srcObject : option nat }.

(** A Cropper.js instance; [destroy()] is its teardown. Whether its image
    has loaded is kept with the devices ([readyCroppers]). *)
Record Cropper := { destroyed : bool }.
Definition destroy (_ : Cropper) : Cropper := {| destroyed := true |}.

(** The argument of [getCroppedCanvas]: the options the canvas is asked
    with. The canvas the engine returns for them is [croppedCanvas],
    below. *)
Record CanvasOptions := {
  width : Z;
  height : Z;
  imageSmoothingEnabled : bool;
  imageSmoothingQuality : string
}.

(** A pending [canvas.toBlob(callback, mime)], for the canvas asked with
    [job_canvas]. *)
Record RenderJob := { job_canvas : CanvasOptions; job_mime : string }.

Record Blob := { blob_type : string; blob_data : list Byte.byte }.

(** One [formData.append(name, blob, filename)]. *)
Record FormEntry := { entry_name : string; entry_value : Blob; entry_filename : string }.


Record Request := { req_url : string; req_method : string; req_body : list FormEntry }.

Record Toast := { variant : option string; title : string; description : option string }.

(** How a [fetch] settles: the promise rejects, or a response arrives with
    its status and its body as [response.json()] reads it ([None] when the
    body is not JSON and [json()] rejects). *)
Inductive FetchResult :=
| NetworkError
| Response (status : Z) (body : option JSON).

(** ** The component *)

(** The [useState] cells (lines 29-33). [fen] holds whatever
    [setFen(result.fen)] stored. *)
Record Hooks := {
  appState : AppState.t;
  imageDataUrl : option string;
  fen : option JSON;
  error : option string;
  hasCameraPermission : option bool
}.

(** The [useRef] cells (lines 35-38). [videoRef] and [imageRef] are DOM
    refs: React fills them while the element is rendered and clears them
    when it is not. *)
Record Refs := {
  videoRef : option HTMLVideoElement;
  imageRef : bool;
  cropperRef : option nat;
  streamRef : option nat
}.

(** The devices: every stream [getUserMedia] handed out, every Cropper
    constructed, the croppers whose image has loaded (Cropper.js sets their
    [ready] flag on the image's load event, after the constructor has
    returned), whether [window.Cropper] is loaded, and the camera requests
    still waiting for an answer. *)
Record Devices := {
  streams : list MediaStream;
  croppers : list Cropper;
  readyCroppers : list nat;
  cropperLoaded : bool;
  pendingGum : nat
}.

(** What the component sent out: toasts, clipboard writes, requests, and the
    encodings and fetches still pending. *)
Record Outbox := {
  toasts : list Toast;
  clipboard : option JSON;
  requests : list Request;
  pendingBlob : list RenderJob;
  pendingFetch : nat
}.

Record Component := {
  hooks : Hooks;
  refs : Refs;
  devices : Devices;
  outbox : Outbox;
  (** the dependencies [appState, imageDataUrl] of the effect's last run *)
  effectDeps : AppState.t * option string;
  (** whether that run returned the cleanup function *)
  effectCleanup : bool
}.

Definition Handler := Component -> Component.

Definition with_hooks (f : Hooks -> Hooks) : Handler := fun c =>
  {| hooks := f (hooks c); refs := refs c; devices := devices c; outbox := outbox c;
     effectDeps := effectDeps c; effectCleanup := effectCleanup c |}.
Definition with_refs (f : Refs -> Refs) : Handler := fun c =>
  {| hooks := hooks c; refs := f (refs c); devices := devices c; outbox := outbox c;
     effectDeps := effectDeps c; effectCleanup := effectCleanup c |}.
Definition with_devices (f : Devices -> Devices) : Handler := fun c =>
  {| hooks := hooks c; refs := refs c; devices := f (devices c); outbox := outbox c;
     effectDeps := effectDeps c; effectCleanup := effectCleanup c |}.
Definition with_outbox (f : Outbox -> Outbox) : Handler := fun c =>
  {| hooks := hooks c; refs := refs c; devices := devices c; outbox := f (outbox c);
     effectDeps := effectDeps c; effectCleanup := effectCleanup c |}.
Definition with_effect (deps : AppState.t * option string) (cleanup : bool) : Handler := fun c =>
  {| hooks := hooks c; refs := refs c; devices := devices c; outbox := outbox c;
     effectDeps := deps; effectCleanup := cleanup |}.

(** The state setters. *)
Definition setAppState (a : AppState.t) : Handler := with_hooks (fun h =>
  {| appState := a; imageDataUrl := imageDataUrl h; fen := fen h; error := error h;
     hasCameraPermission := hasCameraPermission h |}).
Definition setImageDataUrl (u : option string) : Handler := with_hooks (fun h =>
  {| appState := appState h; imageDataUrl := u; fen := fen h; error := error h;
     hasCameraPermission := hasCameraPermission h |}).
Definition setFen (v : option JSON) : Handler := with_hooks (fun h =>
  {| appState := appState h; imageDataUrl := imageDataUrl h; fen := v; error := error h;
     hasCameraPermission := hasCameraPermission h |}).
Definition setError (e : option string) : Handler := with_hooks (fun h =>
  {| appState := appState h; imageDataUrl := imageDataUrl h; fen := fen h; error := e;
     hasCameraPermission := hasCameraPermission h |}).
Definition setHasCameraPermission (p : option bool) : Handler := with_hooks (fun h =>
  {| appState := appState h; imageDataUrl := imageDataUrl h; fen := fen h; error := error h;
     hasCameraPermission := p |}).

(** Writes to the refs. *)
Definition set_videoRef (v : option HTMLVideoElement) : Handler := with_refs (fun r =>
  {| videoRef := v; imageRef := imageRef r; cropperRef := cropperRef r; streamRef := streamRef r |}).
Definition set_imageRef (b : bool) : Handler := with_refs (fun r =>
  {| videoRef := videoRef r; imageRef := b; cropperRef := cropperRef r; streamRef := streamRef r |}).
Definition set_cropperRef (k : option nat) : Handler := with_refs (fun r =>
  {| videoRef := videoRef r; imageRef := imageRef r; cropperRef := k; streamRef := streamRef r |}).
Definition set_streamRef (s : option nat) : Handler := with_refs (fun r =>
  {| videoRef := videoRef r; imageRef := imageRef r; cropperRef := cropperRef r; streamRef := s |}).

(** Changes of the devices. *)
Definition set_streams (l : list MediaStream) : Handler := with_devices (fun d =>
  {| streams := l; croppers := croppers d; readyCroppers := readyCroppers d;
     cropperLoaded := cropperLoaded d; pendingGum := pendingGum d |}).
Definition set_croppers (l : list Cropper) : Handler := with_devices (fun d =>
  {| streams := streams d; croppers := l; readyCroppers := readyCroppers d;
     cropperLoaded := cropperLoaded d; pendingGum := pendingGum d |}).
Definition set_readyCroppers (l : list nat) : Handler := with_devices (fun d =>
  {| streams := streams d; croppers := croppers d; readyCroppers := l;
     cropperLoaded := cropperLoaded d; pendingGum := pendingGum d |}).
Definition set_cropperLoaded (b : bool) : Handler := with_devices (fun d =>
  {| streams := streams d; croppers := croppers d; readyCroppers := readyCroppers d;
     cropperLoaded := b; pendingGum := pendingGum d |}).
Definition set_pendingGum (n : nat) : Handler := with_devices (fun d =>
  {| streams := streams d; croppers := croppers d; readyCroppers := readyCroppers d;
     cropperLoaded := cropperLoaded d; pendingGum := n |}).

(** Changes of the outbox. *)
Definition toast (t : Toast) : Handler := with_outbox (fun o =>
  {| toasts := toasts o ++ [t]; clipboard := clipboard o; requests := requests o;
     pendingBlob := pendingBlob o; pendingFetch := pendingFetch o |}).
Definition writeText (v : JSON) : Handler := with_outbox (fun o =>
  {| toasts := toasts o; clipboard := Some v; requests := requests o;
     pendingBlob := pendingBlob o; pendingFetch := pendingFetch o |}).
Definition fetch (r : Request) : Handler := with_outbox (fun o =>
  {| toasts := toasts o; clipboard := clipboard o; requests := requests o ++ [r];
     pendingBlob := pendingBlob o; pendingFetch := S (pendingFetch o) |}).
Definition set_pendingBlob (l : list RenderJob) : Handler := with_outbox (fun o =>
  {| toasts := toasts o; clipboard := clipboard o; requests := requests o;
     pendingBlob := l; pendingFetch := pendingFetch o |}).
Definition set_pendingFetch (n : nat) : Handler := with_outbox (fun o =>
  {| toasts := toasts o; clipboard := clipboard o; requests := requests o;
     pendingBlob := pendingBlob o; pendingFetch := n |}).

(** Statement sequencing: [f >> g] runs [f], then [g]. *)
Definition seq (f g : Handler) : Handler := fun c => g (f c).
Infix ">>" := seq (at level 61, left associativity).
Definition skip : Handler := fun c => c.

(** ** cleanupCamera (lines 42-50) *)

Definition cleanupCamera : Handler := fun c =>
  let c1 :=
    match streamRef (refs c) with
    | Some sid =>
        (set_streams (alter stopTracks sid (streams (devices c))) >> set_streamRef None) c
    | None => c
    end in
  match videoRef (refs c1) with
  | Some _ => set_videoRef (Some {| srcObject := None |}) c1
  | None => c1
  end.

(** ** requestCameraPermission (lines 52-75) *)

Definition cameraErrorMessage : string :=
  "Could not access the camera. Please check permissions and try again.".

Definition cameraErrorToast : Toast :=
  {| variant := Some "destructive";
     title := "Camera Error";
     description := Some "Could not access camera. Please check browser permissions." |}.

(** Up to the [await]: the stream held so far is released and the request to
    [getUserMedia] is left pending. *)
Definition requestCameraPermission : Handler :=
  cleanupCamera >> (fun c => set_pendingGum (S (pendingGum (devices c))) c).

(** The [try] block resumed with a granted stream of [ntracks] live tracks
    (lines 56-62). The stream is kept only under [if (videoRef.current)]. *)
Definition getUserMedia_resolved (ntracks : nat) : Handler := fun c =>
  let stream := length (streams (devices c)) in
  let c1 :=
    (set_pendingGum (pred (pendingGum (devices c)))
     >> set_streams (streams (devices c) ++ [repeat Live ntracks])
     >> setHasCameraPermission (Some true)) c in
  match videoRef (refs c1) with
  | Some _ =>
      (set_videoRef (Some {| srcObject := Some stream |})
       >> set_streamRef (Some stream)
       >> setAppState AppState.CameraOpen) c1
  | None => c1
  end.

(** The [catch] block (lines 63-74). *)
Definition getUserMedia_rejected : Handler := fun c =>
  (set_pendingGum (pred (pendingGum (devices c)))
   >> setHasCameraPermission (Some false)
   >> setError (Some cameraErrorMessage)
   >> setAppState AppState.Error
   >> toast cameraErrorToast) c.

(** ** handleCapture (lines 77-90)

    [frame] is what the canvas yields: [None] when [getContext("2d")] is
    null, otherwise the data URL of [canvas.toDataURL("image/jpeg")]. *)
Definition handleCapture (frame : option string) : Handler := fun c =>
  match videoRef (refs c) with
  | Some _ =>
      match frame with
      | Some url =>
          (setImageDataUrl (Some url)
           >> setAppState AppState.ImageCaptured
           >> cleanupCamera) c
      | None => c
      end
  | None => c
  end.

(** ** The effect (lines 92-119) *)

Definition cropperMissingMessage : string :=
  "Cropper.js not loaded. Please refresh the page.".

Definition truthy_url (u : option string) : bool :=
  match u with Some s => truthy_string s | None => false end.



(** The function the effect returns (lines 114-118). *)
Definition effect_cleanup : Handler := fun c =>
  match cropperRef (refs c) with
  | Some k => set_croppers (alter destroy k (croppers (devices c))) c
  | None => c
  end.

(** The body of the effect, run with dependencies [deps]; it records
    whether it returned the cleanup function (the early [return] at line 97
    returns nothing). The cropper it constructs, with [cropperOptions], is
    added to those of the browser. *)
Definition effect_body (deps : AppState.t * option string) : Handler := fun c =>
  if AppState.eqb (appState (hooks c)) AppState.ImageCaptured
     && imageRef (refs c) && truthy_url (imageDataUrl (hooks c))
  then
    if negb (cropperLoaded (devices c)) then
      (setError (Some cropperMissingMessage)
       >> setAppState AppState.Error
       >> with_effect deps false) c
    else
      let cropper := length (croppers (devices c)) in
      (set_croppers (croppers (devices c) ++ [{| destroyed := false |}])
       >> set_cropperRef (Some cropper)
       >> with_effect deps true) c
  else with_effect deps true c.

(** ** handleSubmit (lines 121-171) *)

Definition predictEndpoint : string := "http://10.147.210.166:8000/predict".

Definition encodingErrorMessage : string := "Could not process image for submission.".

Definition submitErrorMessage : string :=
  "Failed to get FEN. The server might be down or the image is not a valid chessboard.".

Definition submitErrorToast : Toast :=
  {| variant := Some "destructive";
     title := "Submission Failed";
     description := Some "Could not get FEN from the server. Please try again." |}.

Definition croppedCanvasOptions : CanvasOptions :=
  {| width := 512; height := 512;
     imageSmoothingEnabled := true; imageSmoothingQuality := "high" |}.

(** Cropper.js's [ready] flag of cropper [k]: set once its image has
    loaded, cleared by [destroy()]. *)
Definition cropper_ready (c : Component) (k : nat) : bool :=
  match croppers (devices c) !! k with
  | Some cr => negb (destroyed cr) && existsb (Nat.eqb k) (readyCroppers (devices c))
  | None => false
  end.

(** [cropper.getCroppedCanvas(options)]: Cropper.js answers null unless the
    instance is ready, that is until its image has loaded and once it is
    destroyed. *)
Definition getCroppedCanvas (k : nat) (options : CanvasOptions) (c : Component)
  : option CanvasOptions :=
  if cropper_ready c k then Some options else None.

(** The synchronous part (lines 121-131, 170). The code does not test the
    canvas: on a null canvas [.toBlob] throws and the handler stops after
    [setAppState(Loading)]. *)
Definition handleSubmit : Handler := fun c =>
  match cropperRef (refs c) with
  | None => c
  | Some k =>
      let c1 := setAppState AppState.Loading c in
      match getCroppedCanvas k croppedCanvasOptions c1 with
      | Some canvas =>
          set_pendingBlob
            (pendingBlob (outbox c1) ++ [{| job_canvas := canvas; job_mime := "image/jpeg" |}]) c1
      | None => c1
      end
  end.

(** The [catch] and [finally] blocks (lines 158-169). *)
Definition submit_catch : Handler :=
  setError (Some submitErrorMessage)
  >> setAppState AppState.Error
  >> toast submitErrorToast.

Definition submit_finally : Handler := setImageDataUrl None.

(** The [toBlob] callback up to [await fetch] (lines 131-145): [data] is
    [None] for a null blob; a blob has the type its encoding asked for. *)
Definition toBlob_callback (data : option (list Byte.byte)) : Handler := fun c =>
  match pendingBlob (outbox c) with
  | [] => c
  | job :: rest =>
      let c1 := set_pendingBlob rest c in
      match data with
      | None =>
          (setError (Some encodingErrorMessage) >> setAppState AppState.Error) c1
      | Some bytes =>
          let blob := {| blob_type := job_mime job; blob_data := bytes |} in
          let formData :=
            [{| entry_name := "file"; entry_value := blob; entry_filename := "chessboard.jpg" |}] in
          fetch {| req_url := predictEndpoint; req_method := "POST"; req_body := formData |} c1
      end
  end.

(** [response.ok]. *)
Definition response_ok (status : Z) : bool := (200 <=? status)%Z && (status <=? 299)%Z.

(** The [try] block after [await fetch] (lines 147-157). *)
Definition submit_try (r : FetchResult) : Handler :=
  match r with
  | NetworkError => submit_catch
  | Response status body =>
      if negb (response_ok status) then submit_catch
      else
        match body with
        | None => submit_catch
        | Some result =>
            match get_property result "fen" with
            | Thrown => submit_catch
            | Value None => submit_catch
            | Value (Some v) =>
                if truthy v then setFen (Some v) >> setAppState AppState.FenReceived
                else submit_catch
            end
        end
  end.

(** The callback resumed when the fetch settles. *)
Definition fetch_settled (r : FetchResult) : Handler :=
  (fun c => set_pendingFetch (pred (pendingFetch (outbox c))) c)
  >> submit_try r
  >> submit_finally.

(** ** The canvas the crop engine returns (Cropper.js 1.6.2)

    The crop engine is not part of the repository: the layout loads
    Cropper.js 1.6.2 from a CDN. What follows is the part of its
    [getCroppedCanvas] that decides the canvas it returns for a crop box,
    with the numbers of JavaScript taken as rationals. *)











(** ** handleReset, handleRetake, copyFenToClipboard (lines 173-195) *)

Definition handleReset : Handler :=
  cleanupCamera
  >> setImageDataUrl None
  >> setFen None
  >> setError None
  >> setAppState AppState.Idle
  >> setHasCameraPermission None.

Definition handleRetake : Handler :=
  setImageDataUrl None
  >> setError None
  >> requestCameraPermission.

Definition copiedToast : Toast :=
  {| variant := None; title := "Copied to clipboard!"; description := None |}.

Definition copyFenToClipboard : Handler := fun c =>
  match fen (hooks c) with
  | Some v => if truthy v then (writeText v >> toast copiedToast) c else c
  | None => c
  end.

(** ** renderContent (lines 197-310)

    [renderContent] builds the card for the current state; it is a total
    function of the state cells. Whether React can render the card it
    builds is [renders], below. *)

Inductive Button :=
| ScanChessboard | Close | Capture | Retake | Submit | CopyFen | StartOver | TryAgain.

Definition button_eqb (a b : Button) : bool :=
  match a, b with
  | ScanChessboard, ScanChessboard | Close, Close | Capture, Capture | Retake, Retake
  | Submit, Submit | CopyFen, CopyFen | StartOver, StartOver | TryAgain, TryAgain => true
  | _, _ => false
  end.

Inductive Content :=
| Blank
| FenBox (v : option JSON)
| ErrorText (msg : option string).

(** What a card shows: its title, whether it holds the [<video>] element,
    the [src] of its [<img>] if it holds one, whether the "Camera Access
    Denied" alert is shown, its text and its buttons. *)
Record View := {
  view_title : string;
  view_video : bool;
  view_img : option string;
  view_alert : bool;
  view_content : Content;
  view_buttons : list Button
}.

Definition renderContent (c : Component) : View :=
  match appState (hooks c) with
  | AppState.CameraOpen =>
      {| view_title := "Capture Position"; view_video := true; view_img := None;
         view_alert := match hasCameraPermission (hooks c) with
                       | Some false => true
                       | _ => false
                       end;
         view_content := Blank; view_buttons := [Close; Capture] |}
  | AppState.ImageCaptured =>
      {| view_title := "Crop Image"; view_video := false;
         view_img := Some (match imageDataUrl (hooks c) with
                           | Some u => if truthy_string u then u else ""
                           | None => ""
                           end);
         view_alert := false; view_content := Blank; view_buttons := [Retake; Submit] |}
  | AppState.Loading =>
      {| view_title := "Analyzing Image..."; view_video := false; view_img := None;
         view_alert := false; view_content := Blank; view_buttons := [] |}
  | AppState.FenReceived =>
      {| view_title := "Your FEN String"; view_video := false; view_img := None;
         view_alert := false; view_content := FenBox (fen (hooks c));
         view_buttons := [CopyFen; StartOver] |}
  | AppState.Error =>
      {| view_title := "An Error Occurred"; view_video := false; view_img := None;
         view_alert := false; view_content := ErrorText (error (hooks c));
         view_buttons := [TryAgain] |}
  | AppState.Idle =>
      {| view_title := "VisionFEN"; view_video := false; view_img := None;
         view_alert := false; view_content := Blank; view_buttons := [ScanChessboard] |}
  end.

(** The child [{fen}] of the result card (line 270): React shows a string
    or a number, shows nothing for null and booleans, shows an array item by
    item, and throws on an object, which is not a valid child. *)
Fixpoint renderable (v : JSON) : bool :=
  match v with
  | JObj _ => false
  | JArr items => forallb renderable items
  | JNull | JBool _ | JNum _ | JStr _ => true
  end.

(** Whether React can render the card of the current state: only the
    result card has a child that can throw. *)
Definition renders (c : Component) : bool :=
  match appState (hooks c) with
  | AppState.FenReceived =>
      match fen (hooks c) with
      | Some v => renderable v
      | None => true
      end
  | _ => true
  end.

(** The [onClick] of each button; [frame] is read by Capture only. *)
Definition onClick (b : Button) (frame : option string) : Handler :=
  match b with
  | ScanChessboard => requestCameraPermission
  | Close | StartOver | TryAgain => handleReset
  | Capture => handleCapture frame
  | Retake => handleRetake
  | Submit => handleSubmit
  | CopyFen => copyFenToClipboard
  end.

(** ** Rendering

    After a handler has run React renders again; [commit1] and [commit]
    are the renders that succeed, [rerender] below adds the render that
    throws. The DOM refs follow the view: [videoRef.current] is the
    [<video>] element while the view holds one (the same element from one
    render to the next) and null otherwise, and likewise
    [imageRef.current]. *)
Definition attach_refs : Handler := fun c =>
  let v := renderContent c in
  (set_videoRef
     (if view_video v
      then Some (match videoRef (refs c) with
                 | Some element => element
                 | None => {| srcObject := None |}
                 end)
      else None)
   >> set_imageRef (match view_img v with Some _ => true | None => false end)) c.

Definition same_url (a b : option string) : bool :=
  match a, b with
  | Some x, Some y => String.eqb x y
  | None, None => true
  | _, _ => false
  end.

Definition same_deps (d1 d2 : AppState.t * option string) : bool :=
  AppState.eqb (fst d1) (fst d2) && same_url (snd d1) (snd d2).

(** One render: the refs are attached, and when [appState] or
    [imageDataUrl] changed since the effect last ran, the cleanup it
    returned runs and then the effect itself. *)
Definition commit1 : Handler := fun c =>
  let c1 := attach_refs c in
  let deps := (appState (hooks c1), imageDataUrl (hooks c1)) in
  if same_deps (effectDeps c1) deps then c1
  else ((if effectCleanup c1 then effect_cleanup else skip) >> effect_body deps) c1.

(** The effect sets state on one path only, and the render this causes
    sets none: two renders settle the component. *)
Definition commit : Handler := commit1 >> commit1.

(** Removal of the component: React runs the cleanup of the effect and
    clears the DOM refs. Nothing else of the component runs. *)
Definition unmount : Handler :=
  (fun c => if effectCleanup c then effect_cleanup c else c)
  >> set_videoRef None
  >> set_imageRef false.

(** ** Events *)

Inductive Event :=
| Click (b : Button) (frame : option string)
| GetUserMediaResolved (ntracks : nat)
| GetUserMediaRejected
| BlobReady (data : option (list Byte.byte))
| FetchSettled (r : FetchResult)
| ScriptLoaded
| ImageLoaded (k : nat).

(** What an event does to the component: it is refused when the component
    cannot receive it, the component is removed when the render that follows
    the handler throws, and otherwise the rendered configuration is shown. *)
Inductive Outcome :=
| Refused
| Removed
| Shown (c : Component).

(** The render after a handler, which left [h], of a component that showed
    [shown]. The card of [h] is rendered; when React cannot render it the
    render throws and, there being no error boundary, React removes the
    component. The configuration on screen is one React rendered
    ([run_renders] below); for a [shown] that React could not have rendered
    the question does not arise, and the render is taken as it stands. *)
Definition rerender (shown h : Component) : Outcome :=
  if renders shown && negb (renders h) then Removed else Shown (commit h).

(** An event is received when the component can receive it: a click needs
    its button in the current view, a completion needs its operation
    pending, and the image of a cropper loads once, unless the cropper was
    destroyed first. The script and the image change no state of the
    component: nothing is rendered after them. *)
Definition react (c : Component) (e : Event) : Outcome :=
  match e with
  | Click b frame =>
      if existsb (button_eqb b) (view_buttons (renderContent c))
      then rerender c (onClick b frame c) else Refused
  | GetUserMediaResolved ntracks =>
      match pendingGum (devices c) with
      | O => Refused
      | S _ => rerender c (getUserMedia_resolved ntracks c)
      end
  | GetUserMediaRejected =>
      match pendingGum (devices c) with
      | O => Refused
      | S _ => rerender c (getUserMedia_rejected c)
      end
  | BlobReady data =>
      match pendingBlob (outbox c) with
      | [] => Refused
      | _ :: _ => rerender c (toBlob_callback data c)
      end
  | FetchSettled r =>
      match pendingFetch (outbox c) with
      | O => Refused
      | S _ => rerender c (fetch_settled r c)
      end
  | ScriptLoaded => Shown (set_cropperLoaded true c)
  | ImageLoaded k =>
      match croppers (devices c) !! k with
      | Some cr =>
          if destroyed cr || existsb (Nat.eqb k) (readyCroppers (devices c)) then Refused
          else Shown (set_readyCroppers (k :: readyCroppers (devices c)) c)
      | None => Refused
      end
  end.

(** The configuration after an event the component received and survived. *)
Definition step (c : Component) (e : Event) : option Component :=
  match react c e with
  | Shown c' => Some c'
  | Refused | Removed => None
  end.

Fixpoint run (events : list Event) (c : Component) : option Component :=
  match events with
  | [] => Some c
  | e :: rest =>
      match step c e with
      | Some c' => run rest c'
      | None => None
      end
  end.

(** The component as first mounted: every cell at its initial value, the
    effect run once in [Idle]. *)
Definition initial : Component :=
  {| hooks := {| appState := AppState.Idle; imageDataUrl := None; fen := None;
                 error := None; hasCameraPermission := None |};
     refs := {| videoRef := None; imageRef := false; cropperRef := None; streamRef := None |};
     devices := {| streams := []; croppers := []; readyCroppers := [];
                   cropperLoaded := false; pendingGum := 0 |};
     outbox := {| toasts := []; clipboard := None; requests := [];
                  pendingBlob := []; pendingFetch := 0 |};
     effectDeps := (AppState.Idle, None);
     effectCleanup := true |}.

(** ** Live resources *)

Definition stream_live (ms : MediaStream) : bool := existsb is_live ms.

(** The streams with a running track, the croppers not yet destroyed, the
    submissions between [toBlob] and the settled fetch. *)
Definition liveStreams (c : Component) : nat :=
  length (List.filter stream_live (streams (devices c))).
Definition liveCroppers (c : Component) : nat :=
  length (List.filter (fun cr => negb (destroyed cr)) (croppers (devices c))).
Definition inFlight (c : Component) : nat :=
  length (pendingBlob (outbox c)) + pendingFetch (outbox c).

(** The tracks of the stream a component holds in [streamRef], as they are
    in the component [now]. *)
Definition sessionTracks (held now : Component) : MediaStream :=
  match streamRef (refs held) with
  | Some sid => default [] (streams (devices now) !! sid)
  | None => []
  end.

(** The value the [try] block stores as the FEN, if it stores one: the
    [fen] property of the body of a 2xx response, when it is truthy. *)
Definition accepted (r : FetchResult) : option JSON :=
  match r with
  | Response status (Some result) =>
      if response_ok status then
        match get_property result "fen" with
        | Value (Some v) => if truthy v then Some v else None
        | _ => None
        end
      else None
  | _ => None
  end.

(** ** Example configurations *)

(** The camera card as the success branch of [requestCameraPermission]
    leaves it when the video element is in the document: one stream with one
    live track, held in [streamRef] and shown by the video element. *)
Definition cameraOpened : Component :=
  {| hooks := {| appState := AppState.CameraOpen; imageDataUrl := None; fen := None;
                 error := None; hasCameraPermission := Some true |};
     refs := {| videoRef := Some {| srcObject := Some 0 |}; imageRef := false;
                cropperRef := None; streamRef := Some 0 |};
     devices := {| streams := [[Live]]; croppers := []; readyCroppers := [];
                   cropperLoaded := true; pendingGum := 0 |};
     outbox := {| toasts := []; clipboard := None; requests := [];
                  pendingBlob := []; pendingFetch := 0 |};
     effectDeps := (AppState.CameraOpen, None);
     effectCleanup := true |}.

Definition frameUrl : string := "data:image/jpeg;base64,/9j/4AAQSkZJRg==".

Definition emptyBoard : string := "8/8/8/8/8/8/8/8 w - - 0 1".

Definition fenResponse : FetchResult :=
  Response 200 (Some (JObj [("fen", JStr emptyBoard)])).

Definition nofenResponse : FetchResult :=
  Response 200 (Some (JObj [("nofen", JBool true)])).

Definition serverErrorResponse : FetchResult := Response 500 None.

(** The crop card after a capture, once the image of the cropper has
    loaded, and the loading card after a submit whose image was encoded and
    sent. *)
Definition captureEvents : list Event := [Click Capture (Some frameUrl); ImageLoaded 0].

Definition submitEvents : list Event :=
  [Click Capture (Some frameUrl); ImageLoaded 0; Click Submit None; BlobReady (Some [])].

Definition cropping : Component :=
  Eval vm_compute in default initial (run captureEvents cameraOpened).

(** The crop card right after the capture, the image of the new cropper
    not yet loaded. *)
Definition croppingUnloaded : Component :=
  Eval vm_compute in default initial (run [Click Capture (Some frameUrl)] cameraOpened).

Definition submitting : Component :=
  Eval vm_compute in default initial (run submitEvents cameraOpened).

(** Two clicks on Scan Chessboard on the start card, both requests then
    granted with a stream of one track. *)
Definition scanTwice : list Event :=
  [Click ScanChessboard None; Click ScanChessboard None;
   GetUserMediaResolved 1; GetUserMediaResolved 1].

(** The start card with a video element already in the document. *)
Definition initialWithVideo : Component :=
  set_videoRef (Some {| srcObject := None |}) initial.

(** The capture with [window.Cropper] not loaded. *)
Definition cameraOpenedNoCropper : Component := set_cropperLoaded false cameraOpened.

(** The camera card while a second request to [getUserMedia], that of a
    second click on Scan Chessboard, is still pending. *)
Definition cameraOpenedPending : Component := set_pendingGum 1 cameraOpened.

(** A submission is sent and the pending camera request is then granted. *)
Definition grantWhileSubmitting : list Event :=
  [Click Capture (Some frameUrl); ImageLoaded 0; Click Submit None; BlobReady (Some []);
   GetUserMediaResolved 1].

(** The pending camera request is granted on the crop card. *)
Definition grantWhileCropping : list Event :=
  [Click Capture (Some frameUrl); GetUserMediaResolved 1].

(** ** Reachable configurations *)

(** The start card is never left for the camera card: the [<video>] element
    is rendered on the camera card only, so [videoRef.current] is null when
    a granted request resumes, and the branch that keeps the stream and sets
    [CameraOpen] is not taken. From the initial configuration every
    sequence of events ends on the start card or the error card, with no
    stream held, no crop session and nothing in flight. *)
Definition startOrError (c : Component) : Prop :=
  (appState (hooks c) = AppState.Idle \/ appState (hooks c) = AppState.Error)
  /\ refs c = refs initial
  /\ croppers (devices c) = []
  /\ pendingBlob (outbox c) = []
  /\ pendingFetch (outbox c) = 0.

(** ** Proof tools *)

(** Opens a component into its cells. *)
Ltac open_component c :=
  let a := fresh "a" in let u := fresh "u" in let f := fresh "f" in
  let e := fresh "e" in let p := fresh "p" in
  let v := fresh "v" in let i := fresh "i" in let k := fresh "k" in let s := fresh "s" in
  let ss := fresh "ss" in let cs := fresh "cs" in let rc := fresh "rc" in
  let l := fresh "l" in let g := fresh "g" in
  let ts := fresh "ts" in let cb := fresh "cb" in let rq := fresh "rq" in
  let pb := fresh "pb" in let pf := fresh "pf" in
  let d := fresh "d" in let cl := fresh "cl" in
  destruct c as [[a u f e p] [v i k s] [ss cs rc l g] [ts cb rq pb pf] d cl].

(** ** Further configurations and invariants *)

(** The loading card with no video element, no encoding pending and no
    fetch pending. *)
Definition stalled (c : Component) : Prop :=
  appState (hooks c) = AppState.Loading
  /\ videoRef (refs c) = None
  /\ pendingBlob (outbox c) = []
  /\ pendingFetch (outbox c) = 0.

(** The one encoding [handleSubmit] asks for. *)
Definition standardJob : RenderJob :=
  {| job_canvas := croppedCanvasOptions; job_mime := "image/jpeg" |}.

(** A request as the [toBlob] callback builds it from a JPEG blob. *)
Definition uploadRequest (r : Request) : Prop :=
  req_url r = predictEndpoint
  /\ req_method r = "POST"
  /\ exists bytes,
       req_body r = [{| entry_name := "file";
                        entry_value := {| blob_type := "image/jpeg"; blob_data := bytes |};
                        entry_filename := "chessboard.jpg" |}].

(** Every pending encoding is the standard one and every request issued so
    far is an upload. *)
Definition uploadsOnly (c : Component) : Prop :=
  Forall (fun job => job = standardJob) (pendingBlob (outbox c))
  /\ Forall uploadRequest (requests (outbox c)).

(** The crop card after Retake and Submit, and events that do not leave
    the loading card it ends on. *)
Definition stalledAfterRetake : Component :=
  Eval vm_compute in
    default initial (run [Click Retake None; Click Submit None] cropping).

Definition grantAndScript : list Event := [GetUserMediaResolved 1; ScriptLoaded].

(** A component holding stream 1 of two running streams. *)
Definition holdingSecondStream : Component :=
  (set_streams [[Live]; [Live; Live]] >> set_streamRef (Some 1)) initial.

(** The start card with one camera request pending. *)
Definition scanRequested : Component :=
  Eval vm_compute in default initial (run [Click ScanChessboard None] initial).

(** The component as the effect finds it: refs attached, the previous
    cleanup run if there is one. *)
Definition before_effect (c : Component) : Component :=
  if effectCleanup c then effect_cleanup (attach_refs c) else attach_refs c.

(** The start card after one camera request was granted: its stream runs
    and is not held. Then a second request is made and refused, and Try
    Again resets the component. *)
Definition leakedOnce : Component :=
  Eval vm_compute in
    default initial (run [Click ScanChessboard None; GetUserMediaResolved 1] initial).

Definition refuseAndReset : list Event :=
  [Click ScanChessboard None; GetUserMediaRejected; Click TryAgain None].

(** From the mounted component: a camera request is granted, a second one
    is refused, and Try Again resets the component. *)
Definition grantRefuseReset : list Event :=
  [Click ScanChessboard None; GetUserMediaResolved 1;
   Click ScanChessboard None; GetUserMediaRejected; Click TryAgain None].


(** * Properties *)

(** ** Frame lemmas *)

Lemma running_stopTracks (ms : MediaStream) : running (stopTracks ms) = 0.
Proof.
  unfold running, stopTracks.
  induction ms as [|t ms IH]; simpl; [reflexivity | exact IH].
Qed.

Lemma stopTracks_idempotent (ms : MediaStream) : stopTracks (stopTracks ms) = stopTracks ms.
Proof.
  unfold stopTracks. induction ms as [|t ms IH]; simpl; [reflexivity | now rewrite IH].
Qed.

(** *** cleanupCamera *)

Lemma cleanupCamera_hooks (c : Component) : hooks (cleanupCamera c) = hooks c.
Proof.
  unfold cleanupCamera. open_component c; simpl.
  destruct s, v; reflexivity.
Qed.

Lemma cleanupCamera_outbox (c : Component) : outbox (cleanupCamera c) = outbox c.
Proof.
  unfold cleanupCamera. open_component c; simpl.
  destruct s, v; reflexivity.
Qed.

Lemma cleanupCamera_streamRef (c : Component) : streamRef (refs (cleanupCamera c)) = None.
Proof.
  unfold cleanupCamera. open_component c; simpl.
  destruct s, v; reflexivity.
Qed.

Lemma cleanupCamera_videoRef (c : Component) :
  videoRef (refs (cleanupCamera c)) = (fun _ => {| srcObject := None |}) <$> videoRef (refs c).
Proof.
  unfold cleanupCamera. open_component c; simpl.
  destruct s, v; reflexivity.
Qed.

Lemma cleanupCamera_streams (c : Component) :
  streams (devices (cleanupCamera c)) =
  match streamRef (refs c) with
  | Some sid => alter stopTracks sid (streams (devices c))
  | None => streams (devices c)
  end.
Proof.
  unfold cleanupCamera. open_component c; simpl.
  destruct s, v; reflexivity.
Qed.

Lemma cleanupCamera_session_stopped (c : Component) :
  running (sessionTracks c (cleanupCamera c)) = 0.
Proof.
  unfold sessionTracks. rewrite cleanupCamera_streams.
  destruct (streamRef (refs c)) as [sid|]; [|reflexivity].
  rewrite list_lookup_alter_eq.
  destruct (_ !! sid) as [ms|]; simpl; [apply running_stopTracks | reflexivity].
Qed.

Lemma cleanupCamera_twice (c : Component) : cleanupCamera (cleanupCamera c) = cleanupCamera c.
Proof.
  unfold cleanupCamera. open_component c; simpl.
  destruct s, v; reflexivity.
Qed.

(** ** C6: release is idempotent *)

(** C6. [cleanupCamera], the release of the camera session, is idempotent
    and total: whatever the component holds, a second call changes nothing
    after the first; after a call [streamRef] is null, no track of the
    stream that was held is running, and the video element, when there is
    one, has [srcObject] null. On a null session (no stream in [streamRef])
    the call leaves every stream and every state cell as it was. *)
Theorem cleanupCamera_idempotent (c : Component) :
  let released := cleanupCamera c in
  cleanupCamera released = released
  /\ streamRef (refs released) = None
  /\ running (sessionTracks c released) = 0
  /\ running (sessionTracks c (cleanupCamera released)) = 0
  /\ videoRef (refs released) = (fun _ => {| srcObject := None |}) <$> videoRef (refs c)
  /\ hooks released = hooks c
  /\ streams (devices (cleanupCamera (set_streamRef None c))) = streams (devices c).
Proof.
  cbv zeta. repeat split.
  - apply cleanupCamera_twice.
  - apply cleanupCamera_streamRef.
  - apply cleanupCamera_session_stopped.
  - rewrite cleanupCamera_twice. apply cleanupCamera_session_stopped.
  - apply cleanupCamera_videoRef.
  - apply cleanupCamera_hooks.
  - rewrite cleanupCamera_streams. open_component c. reflexivity.
Qed.

(** *** Rendering *)

Lemma same_url_refl (u : option string) : same_url u u = true.
Proof. destruct u as [s|]; [apply String.eqb_refl | reflexivity]. Qed.

Lemma same_deps_refl (d : AppState.t * option string) : same_deps d d = true.
Proof.
  destruct d as [a u]. unfold same_deps. cbn [fst snd]. rewrite same_url_refl.
  destruct a; reflexivity.
Qed.

Lemma effect_cleanup_outbox (c : Component) : outbox (effect_cleanup c) = outbox c.
Proof. unfold effect_cleanup. destruct (cropperRef (refs c)); reflexivity. Qed.

Lemma effect_cleanup_hooks (c : Component) : hooks (effect_cleanup c) = hooks c.
Proof. unfold effect_cleanup. destruct (cropperRef (refs c)); reflexivity. Qed.

Lemma effect_cleanup_refs (c : Component) : refs (effect_cleanup c) = refs c.
Proof. unfold effect_cleanup. destruct (cropperRef (refs c)); reflexivity. Qed.

Lemma effect_cleanup_streams (c : Component) :
  streams (devices (effect_cleanup c)) = streams (devices c).
Proof. unfold effect_cleanup. destruct (cropperRef (refs c)); reflexivity. Qed.

Lemma effect_body_outbox (deps : AppState.t * option string) (c : Component) :
  outbox (effect_body deps c) = outbox c.
Proof.
  unfold effect_body. destruct (_ && _); [destruct (negb _)|]; reflexivity.
Qed.

Lemma effect_body_streams (deps : AppState.t * option string) (c : Component) :
  streams (devices (effect_body deps c)) = streams (devices c).
Proof.
  unfold effect_body. destruct (_ && _); [destruct (negb _)|]; reflexivity.
Qed.

Lemma effect_body_streamRef (deps : AppState.t * option string) (c : Component) :
  streamRef (refs (effect_body deps c)) = streamRef (refs c).
Proof.
  unfold effect_body. destruct (_ && _); [destruct (negb _)|]; reflexivity.
Qed.

Lemma effect_body_hooks (deps : AppState.t * option string) (c : Component) :
  AppState.eqb (appState (hooks c)) AppState.ImageCaptured = false ->
  hooks (effect_body deps c) = hooks c.
Proof.
  intros H. unfold effect_body. rewrite H. reflexivity.
Qed.

(** The part of a render after the refs are attached. *)
Lemma commit1_unfold (c : Component) :
  commit1 c =
  if same_deps (effectDeps c) (appState (hooks c), imageDataUrl (hooks c))
  then attach_refs c
  else effect_body (appState (hooks c), imageDataUrl (hooks c))
         (if effectCleanup c then effect_cleanup (attach_refs c) else attach_refs c).
Proof.
  unfold commit1, seq, skip. cbv zeta.
  change (effectDeps (attach_refs c)) with (effectDeps c).
  change (hooks (attach_refs c)) with (hooks c).
  change (effectCleanup (attach_refs c)) with (effectCleanup c).
  destruct (same_deps _ _); [reflexivity|]. destruct (effectCleanup c); reflexivity.
Qed.

Lemma commit1_outbox (c : Component) : outbox (commit1 c) = outbox c.
Proof.
  rewrite commit1_unfold. destruct (same_deps _ _); [reflexivity|].
  rewrite effect_body_outbox. destruct (effectCleanup c); [rewrite effect_cleanup_outbox|]; reflexivity.
Qed.

Lemma commit1_streams (c : Component) : streams (devices (commit1 c)) = streams (devices c).
Proof.
  rewrite commit1_unfold. destruct (same_deps _ _); [reflexivity|].
  rewrite effect_body_streams. destruct (effectCleanup c); [rewrite effect_cleanup_streams|]; reflexivity.
Qed.

Lemma commit1_streamRef (c : Component) : streamRef (refs (commit1 c)) = streamRef (refs c).
Proof.
  rewrite commit1_unfold. destruct (same_deps _ _); [reflexivity|].
  rewrite effect_body_streamRef.
  destruct (effectCleanup c); [rewrite effect_cleanup_refs|]; reflexivity.
Qed.

Lemma commit1_hooks (c : Component) :
  AppState.eqb (appState (hooks c)) AppState.ImageCaptured = false ->
  hooks (commit1 c) = hooks c.
Proof.
  intros H. rewrite commit1_unfold. destruct (same_deps _ _); [reflexivity|].
  destruct (effectCleanup c).
  - rewrite effect_body_hooks; rewrite effect_cleanup_hooks; [reflexivity | exact H].
  - rewrite effect_body_hooks; [reflexivity | exact H].
Qed.

Lemma commit_outbox (c : Component) : outbox (commit c) = outbox c.
Proof. unfold commit, seq. now rewrite !commit1_outbox. Qed.

Lemma commit_streams (c : Component) : streams (devices (commit c)) = streams (devices c).
Proof. unfold commit, seq. now rewrite !commit1_streams. Qed.

Lemma commit_streamRef (c : Component) : streamRef (refs (commit c)) = streamRef (refs c).
Proof. unfold commit, seq. now rewrite !commit1_streamRef. Qed.

Lemma commit_hooks (c : Component) :
  AppState.eqb (appState (hooks c)) AppState.ImageCaptured = false ->
  hooks (commit c) = hooks c.
Proof.
  intros H. unfold commit, seq.
  rewrite commit1_hooks; rewrite commit1_hooks; try reflexivity; exact H.
Qed.

Lemma attach_refs_idem (c : Component) : attach_refs (attach_refs c) = attach_refs c.
Proof. open_component c. destruct a, v; reflexivity. Qed.

(** Updates that leave the hooks and the DOM refs alone commute with
    attaching the refs. *)
Lemma attach_refs_effect_cleanup (c : Component) :
  attach_refs (effect_cleanup c) = effect_cleanup (attach_refs c).
Proof. open_component c. destruct a, v, k; reflexivity. Qed.

Lemma attach_refs_with_effect deps cleanup (c : Component) :
  attach_refs (with_effect deps cleanup c) = with_effect deps cleanup (attach_refs c).
Proof. open_component c. destruct a, v; reflexivity. Qed.

Lemma attach_refs_new_cropper cs' k' (c : Component) :
  attach_refs (set_cropperRef k' (set_croppers cs' c)) =
  set_cropperRef k' (set_croppers cs' (attach_refs c)).
Proof. open_component c. destruct a, v; reflexivity. Qed.

(** A render that finds the dependencies unchanged and the refs attached
    changes nothing. *)
Lemma commit1_settled (c : Component) :
  attach_refs c = c ->
  same_deps (effectDeps c) (appState (hooks c), imageDataUrl (hooks c)) = true ->
  commit1 c = c.
Proof. intros Ha Hd. rewrite commit1_unfold, Hd. exact Ha. Qed.

(** X2. The effect cannot keep the component rendering: it sets state on
    one path only (the crop engine missing), and the render this causes runs
    it on the error card, where it sets none. After the two renders that
    follow a handler a third one changes nothing. *)
Lemma commit_settles (c : Component) : commit1 (commit c) = commit c.
Proof.
  unfold commit, seq. rewrite (commit1_unfold c).
  destruct (same_deps (effectDeps c) _) eqn:D.
  - assert (H : commit1 (attach_refs c) = attach_refs c).
    { apply commit1_settled; [apply attach_refs_idem | exact D]. }
    rewrite H. exact H.
  - set (deps := (appState (hooks c), imageDataUrl (hooks c))).
    remember (if effectCleanup c then effect_cleanup (attach_refs c) else attach_refs c)
      as x eqn:Ex.
    assert (Hx : attach_refs x = x).
    { subst x. destruct (effectCleanup c).
      - rewrite attach_refs_effect_cleanup, attach_refs_idem. reflexivity.
      - apply attach_refs_idem. }
    assert (Hh : hooks x = hooks c).
    { subst x. destruct (effectCleanup c); [rewrite effect_cleanup_hooks|]; reflexivity. }
    clear Ex.
    unfold effect_body.
    destruct (AppState.eqb (appState (hooks x)) AppState.ImageCaptured
              && imageRef (refs x) && truthy_url (imageDataUrl (hooks x))) eqn:B.
    + destruct (negb (cropperLoaded (devices x))).
      * (* the effect reported the missing crop engine: one more render *)
        apply andb_prop in B as [B _]. apply andb_prop in B as [B _].
        rewrite Hh in B.
        assert (E : commit1 ((setError (Some cropperMissingMessage)
                               >> setAppState AppState.Error >> with_effect deps false) x)
                    = with_effect (AppState.Error, imageDataUrl (hooks c)) true
                        (attach_refs ((setError (Some cropperMissingMessage)
                               >> setAppState AppState.Error) x))).
        { rewrite commit1_unfold. unfold seq. cbn [effectDeps with_effect hooks setAppState setError
            with_hooks appState imageDataUrl effectCleanup].
          rewrite Hh. subst deps. unfold same_deps. cbn [fst snd].
          destruct (appState (hooks c)); try discriminate B. cbn [AppState.eqb andb].
          reflexivity. }
        rewrite E. apply commit1_settled.
        -- rewrite attach_refs_with_effect, attach_refs_idem. reflexivity.
        -- change (same_deps (AppState.Error, imageDataUrl (hooks c))
                     (AppState.Error, imageDataUrl (hooks x)) = true).
           rewrite Hh. apply same_deps_refl.
      * assert (E : forall y, attach_refs y = y -> hooks y = hooks c ->
                      commit1 (with_effect deps true y) = with_effect deps true y).
        { intros y Hy Hhy. apply commit1_settled.
          - rewrite attach_refs_with_effect, Hy. reflexivity.
          - cbn [effectDeps with_effect hooks]. rewrite Hhy. apply same_deps_refl. }
        unfold seq. rewrite !E; try reflexivity.
        -- rewrite attach_refs_new_cropper, Hx. reflexivity.
        -- exact Hh.
        -- rewrite attach_refs_new_cropper, Hx. reflexivity.
        -- exact Hh.
    + assert (E : commit1 (with_effect deps true x) = with_effect deps true x).
      { apply commit1_settled.
        - rewrite attach_refs_with_effect, Hx. reflexivity.
        - cbn [effectDeps with_effect hooks]. rewrite Hh. apply same_deps_refl. }
      rewrite !E. reflexivity.
Qed.

Lemma effect_body_videoRef (deps : AppState.t * option string) (c : Component) :
  videoRef (refs (effect_body deps c)) = videoRef (refs c).
Proof.
  unfold effect_body. destruct (_ && _); [destruct (negb _)|]; reflexivity.
Qed.

Lemma attach_refs_videoRef (c : Component) :
  AppState.eqb (appState (hooks c)) AppState.CameraOpen = false ->
  videoRef (refs (attach_refs c)) = None.
Proof.
  open_component c. cbn [hooks appState]. intros H. destruct a; try discriminate H; reflexivity.
Qed.

Lemma commit1_videoRef (c : Component) :
  AppState.eqb (appState (hooks c)) AppState.CameraOpen = false ->
  videoRef (refs (commit1 c)) = None.
Proof.
  intros H. rewrite commit1_unfold. destruct (same_deps _ _).
  - apply attach_refs_videoRef, H.
  - rewrite effect_body_videoRef.
    destruct (effectCleanup c); [rewrite effect_cleanup_refs|]; apply attach_refs_videoRef, H.
Qed.

(** *** The example configurations are what the events produce *)

Lemma cameraOpened_built :
  commit ((requestCameraPermission >> getUserMedia_resolved 1)
            (set_cropperLoaded true initialWithVideo)) = cameraOpened.
Proof. reflexivity. Qed.

Lemma cropping_run : run captureEvents cameraOpened = Some cropping.
Proof. reflexivity. Qed.

Lemma submitting_run : run submitEvents cameraOpened = Some submitting.
Proof. reflexivity. Qed.

(** *** handleReset *)

Lemma handleReset_hooks (c : Component) : hooks (handleReset c) = hooks initial.
Proof. reflexivity. Qed.

Lemma handleReset_streams (c : Component) :
  streams (devices (handleReset c)) = streams (devices (cleanupCamera c)).
Proof. reflexivity. Qed.

Lemma handleReset_refs (c : Component) : refs (handleReset c) = refs (cleanupCamera c).
Proof. reflexivity. Qed.

(** ** What handleReset resets *)

(** X18. From any configuration [handleReset] leaves the state [Idle] and
    the stored FEN, error message, captured image and camera-permission flag
    null; the stream held in [streamRef] has no running track, [streamRef]
    is null and the video element is detached from the stream. The same
    holds once the component has rendered again, where the video element is
    gone altogether. A stream that [streamRef] does not hold is left exactly
    as it was. *)
Theorem handleReset_restores_initial (c : Component) :
  let r := handleReset c in
  let r' := commit r in
  (appState (hooks r) = AppState.Idle /\ fen (hooks r) = None /\ error (hooks r) = None
   /\ imageDataUrl (hooks r) = None /\ hasCameraPermission (hooks r) = None)
  /\ (streamRef (refs r) = None /\ running (sessionTracks c r) = 0
      /\ videoRef (refs r) = (fun _ => {| srcObject := None |}) <$> videoRef (refs c))
  /\ (appState (hooks r') = AppState.Idle /\ fen (hooks r') = None /\ error (hooks r') = None
      /\ imageDataUrl (hooks r') = None /\ hasCameraPermission (hooks r') = None)
  /\ (streamRef (refs r') = None /\ running (sessionTracks c r') = 0
      /\ videoRef (refs r') = None)
  /\ (forall sid, streamRef (refs c) <> Some sid ->
        streams (devices r') !! sid = streams (devices c) !! sid).
Proof.
  cbv zeta.
  assert (Hh : hooks (commit (handleReset c)) = hooks initial).
  { rewrite commit_hooks; reflexivity. }
  split; [repeat split|]. split; [|split; [|split]]; cycle 3.
  { intros sid Hne. rewrite commit_streams, handleReset_streams, cleanupCamera_streams.
    destruct (streamRef (refs c)) as [held|]; [|reflexivity].
    apply list_lookup_alter_ne. congruence. }
  - split; [|split].
    + rewrite handleReset_refs. apply cleanupCamera_streamRef.
    + unfold sessionTracks. rewrite handleReset_streams. apply cleanupCamera_session_stopped.
    + rewrite handleReset_refs. apply cleanupCamera_videoRef.
  - rewrite Hh. repeat split.
  - split; [|split].
    + rewrite commit_streamRef, handleReset_refs. apply cleanupCamera_streamRef.
    + unfold sessionTracks. rewrite commit_streams, handleReset_streams.
      apply cleanupCamera_session_stopped.
    + unfold commit, seq. apply commit1_videoRef. rewrite commit1_hooks; reflexivity.
Qed.

(** *** The settled fetch *)

Lemma submit_try_accepted (r : FetchResult) :
  submit_try r =
  match accepted r with
  | Some v => setFen (Some v) >> setAppState AppState.FenReceived
  | None => submit_catch
  end.
Proof.
  destruct r as [|status [result|]]; [reflexivity | |].
  - unfold submit_try, accepted. destruct (response_ok status); [|reflexivity].
    cbn [negb]. destruct (get_property result "fen") as [|[v|]]; try reflexivity.
    destruct (truthy v); reflexivity.
  - unfold submit_try, accepted. destruct (response_ok status); reflexivity.
Qed.

Lemma response_ok_iff (status : Z) : response_ok status = true <-> (200 <= status <= 299)%Z.
Proof. unfold response_ok. rewrite andb_true_iff, !Z.leb_le. reflexivity. Qed.

Lemma truthy_string_nonempty (s : string) : s <> "" -> truthy_string s = true.
Proof. destruct s; [congruence | reflexivity]. Qed.

Lemma fetch_settled_unfold (r : FetchResult) (c : Component) :
  fetch_settled r c =
  match accepted r with
  | Some v =>
      (set_pendingFetch (pred (pendingFetch (outbox c)))
       >> setFen (Some v) >> setAppState AppState.FenReceived >> setImageDataUrl None) c
  | None =>
      (set_pendingFetch (pred (pendingFetch (outbox c)))
       >> setError (Some submitErrorMessage) >> setAppState AppState.Error
       >> toast submitErrorToast >> setImageDataUrl None) c
  end.
Proof.
  unfold fetch_settled, submit_finally, seq. rewrite submit_try_accepted.
  destruct (accepted r); reflexivity.
Qed.

Lemma fetch_settled_not_cropping (r : FetchResult) (c : Component) :
  AppState.eqb (appState (hooks (fetch_settled r c))) AppState.ImageCaptured = false.
Proof. rewrite fetch_settled_unfold. destruct (accepted r); reflexivity. Qed.

Lemma fetch_settled_requests (r : FetchResult) (c : Component) :
  requests (outbox (fetch_settled r c)) = requests (outbox c)
  /\ pendingBlob (outbox (fetch_settled r c)) = pendingBlob (outbox c)
  /\ pendingFetch (outbox (fetch_settled r c)) = pred (pendingFetch (outbox c)).
Proof. rewrite fetch_settled_unfold. destruct (accepted r); repeat split. Qed.

(** *** Events that are taken *)

Lemma renders_off (c : Component) :
  appState (hooks c) <> AppState.FenReceived -> renders c = true.
Proof. unfold renders. destruct (appState (hooks c)); congruence. Qed.

Lemma renders_hooks (c h : Component) : hooks h = hooks c -> renders h = renders c.
Proof. unfold renders. intros ->. reflexivity. Qed.

Lemma rerender_shown (c h : Component) :
  (renders c = true -> renders h = true) -> rerender c h = Shown (commit h).
Proof.
  intros H. unfold rerender. destruct (renders c); [rewrite H by reflexivity|]; reflexivity.
Qed.

Lemma rerender_same (c h : Component) :
  renders h = renders c -> rerender c h = Shown (commit h).
Proof. intros H. apply rerender_shown. rewrite H. trivial. Qed.

Lemma rerender_off (c h : Component) :
  appState (hooks h) <> AppState.FenReceived -> rerender c h = Shown (commit h).
Proof. intros H. apply rerender_shown. intros _. apply renders_off, H. Qed.

Lemma rerender_removed (c h : Component) :
  renders c = true -> renders h = false -> rerender c h = Removed.
Proof. intros Hc Hh. unfold rerender. rewrite Hc, Hh. reflexivity. Qed.

(** The configuration [step] returns after a handler is its render. *)
Lemma shown_commit (c h c' : Component) :
  match rerender c h with Shown x => Some x | Refused | Removed => None end = Some c' ->
  c' = commit h.
Proof.
  unfold rerender. destruct (renders c && negb (renders h)); [discriminate|].
  intros H. injection H as <-. reflexivity.
Qed.

Lemma step_fetch_settled (c : Component) (r : FetchResult) (n : nat) :
  pendingFetch (outbox c) = S n ->
  (renders c = true -> renders (fetch_settled r c) = true) ->
  step c (FetchSettled r) = Some (commit (fetch_settled r c)).
Proof.
  intros H Hr. unfold step, react. rewrite H, (rerender_shown _ _ Hr). reflexivity.
Qed.

Lemma toBlob_callback_renders (data : option (list Byte.byte)) (c : Component) :
  renders c = true -> renders (toBlob_callback data c) = true.
Proof.
  intros H. unfold toBlob_callback. destruct (pendingBlob (outbox c)); [exact H|].
  destruct data; [exact H | reflexivity].
Qed.

Lemma step_blob_ready (c : Component) data job rest :
  pendingBlob (outbox c) = job :: rest ->
  step c (BlobReady data) = Some (commit (toBlob_callback data c)).
Proof.
  intros H. unfold step, react.
  rewrite (rerender_shown _ _ (toBlob_callback_renders data c)), H. reflexivity.
Qed.

Lemma handleSubmit_renders (c : Component) :
  renders c = true -> renders (handleSubmit c) = true.
Proof.
  intros H. unfold handleSubmit. destruct (cropperRef (refs c)); [|exact H].
  destruct (getCroppedCanvas _ _ _); reflexivity.
Qed.

Lemma step_rejected (c : Component) :
  pendingGum (devices c) <> 0 ->
  step c GetUserMediaRejected = Some (commit (getUserMedia_rejected c)).
Proof.
  intros H. unfold step, react. destruct (pendingGum (devices c)); [congruence|].
  rewrite rerender_off; [reflexivity | discriminate].
Qed.

Lemma step_resolved (c : Component) (ntracks : nat) :
  pendingGum (devices c) <> 0 ->
  (renders c = true -> renders (getUserMedia_resolved ntracks c) = true) ->
  step c (GetUserMediaResolved ntracks) = Some (commit (getUserMedia_resolved ntracks c)).
Proof.
  intros H Hr. unfold step, react. destruct (pendingGum (devices c)); [congruence|].
  rewrite (rerender_shown _ _ Hr). reflexivity.
Qed.

Lemma step_click_submit (c : Component) frame :
  appState (hooks c) = AppState.ImageCaptured ->
  step c (Click Submit frame) = Some (commit (handleSubmit c)).
Proof.
  intros H. unfold step, react, renderContent, onClick.
  rewrite H, (rerender_shown _ _ (handleSubmit_renders c)). reflexivity.
Qed.

(** ** C5: a valid response completes the submission *)

(** C5. When a fetch is pending and it settles with a 2xx status and a JSON
    object whose [fen] field is a non-empty string, the component takes the
    event and, whatever state it was in (in particular [Loading]), ends in
    [FenReceived] holding exactly that string, which the result card
    shows. *)
Theorem valid_response_completes
    (c : Component) (status : Z) (fields : list (string * JSON)) (f : string) :
  (200 <= status <= 299)%Z ->
  lookup_field "fen" fields = Some (JStr f) ->
  f <> "" ->
  pendingFetch (outbox c) <> 0 ->
  exists c',
    step c (FetchSettled (Response status (Some (JObj fields)))) = Some c'
    /\ appState (hooks c') = AppState.FenReceived
    /\ fen (hooks c') = Some (JStr f)
    /\ view_content (renderContent c') = FenBox (Some (JStr f)).
Proof.
  intros Hstatus Hfen Hf Hpending.
  destruct (pendingFetch (outbox c)) as [|n] eqn:Hn; [congruence|].
  assert (Hacc : accepted (Response status (Some (JObj fields))) = Some (JStr f)).
  { unfold accepted. apply response_ok_iff in Hstatus. rewrite Hstatus.
    cbn [get_property]. rewrite Hfen. cbn [truthy].
    rewrite (truthy_string_nonempty f Hf). reflexivity. }
  eexists. split.
  { apply (step_fetch_settled _ _ n Hn). intros _.
    unfold renders. rewrite fetch_settled_unfold, Hacc. reflexivity. }
  assert (Hh : hooks (commit (fetch_settled (Response status (Some (JObj fields))) c))
               = hooks (fetch_settled (Response status (Some (JObj fields))) c)).
  { apply commit_hooks, fetch_settled_not_cropping. }
  unfold renderContent. rewrite Hh, fetch_settled_unfold, Hacc. repeat split.
Qed.

(** C5 at the mock service of the specification: status 200 and the empty
    board, received on the loading card. *)
Lemma valid_response_completes_witness :
  appState (hooks submitting) = AppState.Loading
  /\ exists c',
       step submitting (FetchSettled fenResponse) = Some c'
       /\ appState (hooks c') = AppState.FenReceived
       /\ fen (hooks c') = Some (JStr emptyBoard)
       /\ view_content (renderContent c') = FenBox (Some (JStr emptyBoard)).
Proof.
  split; [reflexivity|].
  apply (valid_response_completes submitting 200 [("fen", JStr emptyBoard)] emptyBoard).
  - lia.
  - reflexivity.
  - discriminate.
  - discriminate.
Defined.

(** *** The submission, step by step *)

(** [handleSubmit] on a component whose cropper is ready. *)
Lemma handleSubmit_open (c : Component) (k : nat) :
  cropperRef (refs c) = Some k ->
  cropper_ready c k = true ->
  handleSubmit c =
  (setAppState AppState.Loading
   >> set_pendingBlob (pendingBlob (outbox c)
                       ++ [{| job_canvas := croppedCanvasOptions; job_mime := "image/jpeg" |}])) c.
Proof.
  intros Hk Hready. unfold handleSubmit, getCroppedCanvas, seq. rewrite Hk.
  change (cropper_ready (setAppState AppState.Loading c) k) with (cropper_ready c k).
  rewrite Hready. reflexivity.
Qed.

(** [handleSubmit] on a component whose cropper is not ready: the canvas
    is null and the handler stops after [setAppState(Loading)]. *)
Lemma handleSubmit_null_canvas (c : Component) (k : nat) :
  cropperRef (refs c) = Some k ->
  cropper_ready c k = false ->
  handleSubmit c = setAppState AppState.Loading c.
Proof.
  intros Hk Hready. unfold handleSubmit, getCroppedCanvas. rewrite Hk.
  change (cropper_ready (setAppState AppState.Loading c) k) with (cropper_ready c k).
  rewrite Hready. reflexivity.
Qed.

Lemma destroyed_not_ready (c : Component) (k : nat) (cr : Cropper) :
  croppers (devices c) !! k = Some cr -> destroyed cr = true -> cropper_ready c k = false.
Proof. intros Hcr Hdead. unfold cropper_ready. rewrite Hcr, Hdead. reflexivity. Qed.

(** The click on Submit, rendered. *)
Lemma submit_open_outcome (c : Component) (k : nat) :
  cropperRef (refs c) = Some k ->
  cropper_ready c k = true ->
  appState (hooks (commit (handleSubmit c))) = AppState.Loading
  /\ pendingBlob (outbox (commit (handleSubmit c))) =
     (pendingBlob (outbox c)
      ++ [{| job_canvas := croppedCanvasOptions; job_mime := "image/jpeg" |}])%list
  /\ requests (outbox (commit (handleSubmit c))) = requests (outbox c)
  /\ pendingFetch (outbox (commit (handleSubmit c))) = pendingFetch (outbox c)
  /\ toasts (outbox (commit (handleSubmit c))) = toasts (outbox c).
Proof.
  intros Hk Hready.
  rewrite commit_outbox, commit_hooks; rewrite (handleSubmit_open c k Hk Hready);
    repeat split.
Qed.



(** The [toBlob] callback with a null blob, rendered. The [return] of line
    135 is outside the [try]: the captured image is not cleared. *)
Lemma blob_null_outcome (c : Component) (job : RenderJob) rest :
  pendingBlob (outbox c) = job :: rest ->
  appState (hooks (commit (toBlob_callback None c))) = AppState.Error
  /\ error (hooks (commit (toBlob_callback None c))) = Some encodingErrorMessage
  /\ imageDataUrl (hooks (commit (toBlob_callback None c))) = imageDataUrl (hooks c)
  /\ requests (outbox (commit (toBlob_callback None c))) = requests (outbox c)
  /\ pendingBlob (outbox (commit (toBlob_callback None c))) = rest
  /\ pendingFetch (outbox (commit (toBlob_callback None c))) = pendingFetch (outbox c)
  /\ toasts (outbox (commit (toBlob_callback None c))) = toasts (outbox c).
Proof.
  intros H. rewrite commit_outbox, commit_hooks; unfold toBlob_callback; rewrite H;
    repeat split.
Qed.

(** The settled fetch, rendered. *)
Lemma fetch_settled_outcome (c : Component) (r : FetchResult) :
  requests (outbox (commit (fetch_settled r c))) = requests (outbox c)
  /\ pendingBlob (outbox (commit (fetch_settled r c))) = pendingBlob (outbox c)
  /\ pendingFetch (outbox (commit (fetch_settled r c))) = pred (pendingFetch (outbox c)).
Proof. rewrite commit_outbox. apply fetch_settled_requests. Qed.

(** Whether the card the settled fetch leaves can be rendered. *)
Lemma fetch_settled_renders (c : Component) (r : FetchResult) :
  renders (fetch_settled r c) =
  match accepted r with
  | Some v => renderable v
  | None => true
  end.
Proof. unfold renders. rewrite fetch_settled_unfold. destruct (accepted r); reflexivity. Qed.

(** ** C9: one POST per submit *)



(** ** The encoding the component asks for *)

(** X14. With a crop session whose image has loaded, whatever frame was
    captured, [handleSubmit] asks the crop engine for one canvas of 512 by
    512 with smoothing of quality [high] and for its encoding as
    [image/jpeg]: this one encoding is added to the pending ones and the
    loading card is shown. When the encoding then yields no blob, the
    component shows the error card with the message of the encoding failure
    and the Try Again button, keeps the captured image, sends no request and
    raises no toast. *)
Theorem submit_asks_for_one_512_jpeg (c : Component) (k : nat) :
  appState (hooks c) = AppState.ImageCaptured ->
  cropperRef (refs c) = Some k ->
  cropper_ready c k = true ->
  pendingBlob (outbox c) = [] ->
  exists c1 c2,
    step c (Click Submit None) = Some c1
    /\ appState (hooks c1) = AppState.Loading
    /\ pendingBlob (outbox c1) =
       [{| job_canvas := {| width := 512; height := 512; imageSmoothingEnabled := true;
                            imageSmoothingQuality := "high" |};
           job_mime := "image/jpeg" |}]
    /\ step c1 (BlobReady None) = Some c2
    /\ appState (hooks c2) = AppState.Error
    /\ error (hooks c2) = Some "Could not process image for submission."
    /\ view_content (renderContent c2) = ErrorText (Some "Could not process image for submission.")
    /\ view_buttons (renderContent c2) = [TryAgain]
    /\ imageDataUrl (hooks c2) = imageDataUrl (hooks c1)
    /\ requests (outbox c2) = requests (outbox c)
    /\ toasts (outbox c2) = toasts (outbox c)
    /\ inFlight c2 = pendingFetch (outbox c).
Proof.
  intros Happ Hk Hready Hnone.
  destruct (submit_open_outcome c k Hk Hready) as (Ha1 & Hjob & Hr1 & Hf1 & Ht1).
  rewrite Hnone in Hjob. cbn [app] in Hjob.
  remember (commit (handleSubmit c)) as c1 eqn:E1.
  destruct (blob_null_outcome c1 _ _ Hjob) as (Ha2 & He2 & Hu2 & Hr2 & Hb2 & Hf2 & Ht2).
  remember (commit (toBlob_callback None c1)) as c2 eqn:E2.
  exists c1, c2.
  split; [subst c1; apply step_click_submit, Happ|].
  split; [exact Ha1|]. split; [exact Hjob|].
  split; [subst c2; apply (step_blob_ready _ _ _ _ Hjob)|].
  unfold renderContent, inFlight.
  rewrite Ha2, He2, Hu2, Hr2, Hb2, Hf2, Ht2, Hr1, Hf1, Ht1. repeat split.
Qed.

(** X14 on the crop card reached by a capture. *)
Lemma submit_asks_for_one_512_jpeg_witness :
  exists c1 c2,
    step cropping (Click Submit None) = Some c1
    /\ (width <$> (job_canvas <$> pendingBlob (outbox c1))) = [512%Z]
    /\ (height <$> (job_canvas <$> pendingBlob (outbox c1))) = [512%Z]
    /\ step c1 (BlobReady None) = Some c2
    /\ appState (hooks c2) = AppState.Error
    /\ toasts (outbox c2) = [].
Proof.
  destruct (submit_asks_for_one_512_jpeg cropping 0)
    as (c1 & c2 & H1 & _ & Hjob & H2 & Herr & _ & _ & _ & _ & _ & Ht & _); try reflexivity.
  exists c1, c2. rewrite Hjob, Ht. repeat split; assumption.
Defined.

(** X15. On the crop card, while the image of the cropper in [cropperRef]
    has not loaded (or once the cropper is destroyed), a click on Submit is
    not refused by the guard of [handleSubmit]: [getCroppedCanvas] answers
    null, [.toBlob] throws on it, and the handler stops after
    [setAppState(Loading)]. The loading card is shown, which has no button;
    no encoding and no request is started, no error is stored and no toast
    raised. *)
Theorem submit_before_image_loaded_stalls
    (c : Component) (k : nat) (frame : option string) :
  appState (hooks c) = AppState.ImageCaptured ->
  cropperRef (refs c) = Some k ->
  cropper_ready c k = false ->
  exists c',
    step c (Click Submit frame) = Some c'
    /\ appState (hooks c') = AppState.Loading
    /\ view_buttons (renderContent c') = []
    /\ error (hooks c') = error (hooks c)
    /\ outbox c' = outbox c.
Proof.
  intros Ha Hk Hready.
  exists (commit (handleSubmit c)).
  split; [apply step_click_submit, Ha|].
  rewrite (handleSubmit_null_canvas c k Hk Hready).
  assert (Hh : hooks (commit (setAppState AppState.Loading c))
               = hooks (setAppState AppState.Loading c)).
  { apply commit_hooks. reflexivity. }
  pose proof (commit_outbox (setAppState AppState.Loading c)) as Ho.
  remember (commit (setAppState AppState.Loading c)) as c' eqn:E. clear E.
  unfold renderContent. rewrite Hh, Ho. repeat split.
Qed.

(** X15 on the crop card right after the capture, before the image of the
    new cropper has loaded. *)
Lemma submit_before_image_loaded_stalls_witness :
  cropperRef (refs croppingUnloaded) = Some 0
  /\ liveCroppers croppingUnloaded = 1
  /\ exists c',
       step croppingUnloaded (Click Submit None) = Some c'
       /\ appState (hooks c') = AppState.Loading
       /\ inFlight c' = 0.
Proof.
  split; [reflexivity|]. split; [reflexivity|].
  destruct (submit_before_image_loaded_stalls croppingUnloaded 0 None)
    as (c' & Hs & Ha & _ & _ & Ho); try reflexivity.
  exists c'. unfold inFlight. rewrite Ho. repeat split; assumption.
Defined.

(** ** The settled fetch in any state *)

(** X16. The callback of a submission reads nothing of the current state:
    in whatever configuration the fetch settles, [Idle] after a reset
    included, its result is applied. A response that is accepted stores its
    FEN and sets [FenReceived], leaving the stored error and the toasts as
    they were; any other outcome stores the fixed error message, sets
    [Error] and raises one toast, leaving the stored FEN as it was; both
    clear the captured image. The render that follows keeps these cells,
    unless the FEN stored is one React cannot render (an object): the render
    of the result card then throws and the component is removed. *)
Theorem settled_fetch_applied_in_any_state (c : Component) (r : FetchResult) :
  let h := fetch_settled r c in
  react c (FetchSettled r) =
    match pendingFetch (outbox c) with
    | O => Refused
    | S _ => if renders c && negb (renders h) then Removed else Shown (commit h)
    end
  /\ imageDataUrl (hooks h) = None
  /\ match accepted r with
     | Some v =>
         appState (hooks h) = AppState.FenReceived
         /\ fen (hooks h) = Some v
         /\ error (hooks h) = error (hooks c)
         /\ toasts (outbox h) = toasts (outbox c)
         /\ renders h = renderable v
     | None =>
         appState (hooks h) = AppState.Error
         /\ error (hooks h) = Some submitErrorMessage
         /\ fen (hooks h) = fen (hooks c)
         /\ toasts (outbox h) = (toasts (outbox c) ++ [submitErrorToast])%list
         /\ renders h = true
     end
  /\ hooks (commit h) = hooks h
  /\ outbox (commit h) = outbox h.
Proof.
  cbv zeta. split; [reflexivity|].
  rewrite commit_outbox, commit_hooks by apply fetch_settled_not_cropping.
  rewrite fetch_settled_renders, fetch_settled_unfold.
  destruct (accepted r); repeat split.
Qed.

(** ** Failed responses *)

(** X17. A response whose status is outside 200..299, and a 2xx response
    whose body is not a JSON object with a truthy [fen] (a body that is not
    JSON, null, an array, an object without [fen], an object whose [fen] is
    null, false, 0 or the empty string), are handled exactly as a rejected
    fetch is: the component shows the error card with the one fixed
    submission message and the Try Again button, raises the one submission
    toast and keeps the stored FEN. Nothing records which failure it was. *)
Theorem failed_response_enters_error
    (c : Component) (status : Z) (body : option JSON) :
  (~ (200 <= status <= 299)%Z
   \/ forall fields v, body = Some (JObj fields) ->
        lookup_field "fen" fields = Some v -> truthy v = false) ->
  pendingFetch (outbox c) <> 0 ->
  exists c',
    step c (FetchSettled (Response status body)) = Some c'
    /\ step c (FetchSettled NetworkError) = Some c'
    /\ appState (hooks c') = AppState.Error
    /\ error (hooks c') = Some submitErrorMessage
    /\ fen (hooks c') = fen (hooks c)
    /\ toasts (outbox c') = (toasts (outbox c) ++ [submitErrorToast])%list
    /\ view_content (renderContent c') = ErrorText (Some submitErrorMessage)
    /\ view_buttons (renderContent c') = [TryAgain].
Proof.
  intros H Hpending.
  destruct (pendingFetch (outbox c)) as [|n] eqn:Hn; [congruence|].
  assert (Hacc : accepted (Response status body) = None).
  { unfold accepted. destruct body as [result|]; [|reflexivity].
    destruct (response_ok status) eqn:E; [|reflexivity].
    destruct H as [Hs | Hf]; [apply response_ok_iff in E; contradiction|].
    destruct result as [| | | | |fields]; try reflexivity.
    cbn [get_property]. destruct (lookup_field "fen" fields) as [v|] eqn:Hv; [|reflexivity].
    rewrite (Hf fields v eq_refl Hv). reflexivity. }
  assert (Heq : fetch_settled (Response status body) c = fetch_settled NetworkError c).
  { rewrite !fetch_settled_unfold, Hacc. reflexivity. }
  exists (commit (fetch_settled NetworkError c)).
  split; [rewrite <- Heq; apply (step_fetch_settled _ _ n Hn); intros _;
          rewrite fetch_settled_renders, Hacc; reflexivity|].
  split; [apply (step_fetch_settled _ _ n Hn); intros _; reflexivity|].
  unfold renderContent.
  rewrite commit_outbox, commit_hooks by apply fetch_settled_not_cropping.
  rewrite fetch_settled_unfold. repeat split.
Qed.

(** X17 at status 500 and at status 200 with [{"nofen": true}], received
    on the loading card: the two lead to one and the same configuration. *)
Lemma failed_response_enters_error_witness :
  exists c',
    step submitting (FetchSettled serverErrorResponse) = Some c'
    /\ step submitting (FetchSettled nofenResponse) = Some c'
    /\ appState (hooks c') = AppState.Error
    /\ error (hooks c') = Some submitErrorMessage.
Proof.
  destruct (failed_response_enters_error submitting 500 None)
    as (c1 & H1 & N1 & Ha & He & _); [left; lia | discriminate |].
  destruct (failed_response_enters_error submitting 200 (Some (JObj [("nofen", JBool true)])))
    as (c2 & H2 & N2 & _).
  - right. intros fields v [= <-] Hv. discriminate Hv.
  - discriminate.
  - exists c1. split; [exact H1|]. split; [|split; assumption].
    rewrite N1 in N2. rewrite <- N2 in H2. exact H2.
Defined.

(** The [fen] field is tested for truthiness only: a number there is
    stored as the FEN. *)
Lemma truthy_number_accepted_as_fen :
  exists c', step submitting (FetchSettled (Response 200 (Some (JObj [("fen", JNum 42)]))))
             = Some c'
             /\ appState (hooks c') = AppState.FenReceived
             /\ fen (hooks c') = Some (JNum 42).
Proof. vm_compute. eexists. split; [reflexivity|]. split; reflexivity. Qed.

(** An object there is stored too, and the render of the result card then
    throws. *)
Lemma object_fen_removes_component :
  react submitting (FetchSettled (Response 200 (Some (JObj [("fen", JObj [])])))) = Removed.
Proof. vm_compute. reflexivity. Qed.

(** ** C2: streams that are never released *)

Lemma effect_body_off (deps : AppState.t * option string) (c : Component) :
  AppState.eqb (appState (hooks c)) AppState.ImageCaptured = false ->
  effect_body deps c = with_effect deps true c.
Proof. intros H. unfold effect_body. rewrite H. reflexivity. Qed.

Lemma commit1_startOrError (c : Component) : startOrError c -> startOrError (commit1 c).
Proof.
  intros (Ha & Hr & Hc & Hb & Hf).
  assert (Hn : AppState.eqb (appState (hooks c)) AppState.ImageCaptured = false).
  { destruct Ha as [-> | ->]; reflexivity. }
  assert (Hat : attach_refs c = c).
  { open_component c. cbn in Ha, Hr. injection Hr as -> -> -> ->.
    destruct Ha as [-> | ->]; reflexivity. }
  unfold startOrError. rewrite commit1_outbox, (commit1_hooks c Hn).
  repeat split; try assumption.
  - rewrite commit1_unfold, Hat. destruct (same_deps _ _); [exact Hr|].
    destruct (effectCleanup c).
    + rewrite effect_body_off by (rewrite effect_cleanup_hooks; exact Hn).
      cbn [with_effect refs]. rewrite effect_cleanup_refs. exact Hr.
    + rewrite effect_body_off by exact Hn. exact Hr.
  - assert (Hec : effect_cleanup c = c).
    { unfold effect_cleanup. rewrite Hr. reflexivity. }
    rewrite commit1_unfold, Hat, Hec. destruct (same_deps _ _); [exact Hc|].
    rewrite effect_body_off by (destruct (effectCleanup c); exact Hn).
    destruct (effectCleanup c); exact Hc.
Qed.

Lemma commit_startOrError (c : Component) : startOrError c -> startOrError (commit c).
Proof. intros H. unfold commit, seq. now apply commit1_startOrError, commit1_startOrError. Qed.

Lemma step_startOrError (c c' : Component) (e : Event) :
  startOrError c -> step c e = Some c' -> startOrError c'.
Proof.
  intros Hinv Hstep. pose proof Hinv as (Ha & Hr & Hc & Hb & Hf).
  destruct e as [b frame| ntracks | | data | r | | k0]; unfold step in Hstep; cbn [react] in Hstep.
  - (* a click: Scan Chessboard on the start card, Try Again on the error card *)
    destruct (existsb _ _) eqn:Hbtn; [|discriminate]. apply shown_commit in Hstep as ->.
    apply commit_startOrError.
    open_component c. cbn in Ha, Hr, Hc, Hb, Hf. injection Hr as -> -> -> ->. subst.
    unfold renderContent in Hbtn. cbn [hooks appState] in Hbtn.
    destruct Ha as [-> | ->]; destruct b; try discriminate Hbtn;
      unfold startOrError; cbn; auto.
  - destruct (pendingGum (devices c)); [discriminate|]. apply shown_commit in Hstep as ->.
    apply commit_startOrError.
    open_component c. cbn in Ha, Hr, Hc, Hb, Hf. injection Hr as -> -> -> ->. subst.
    unfold startOrError; cbn; auto.
  - destruct (pendingGum (devices c)); [discriminate|]. apply shown_commit in Hstep as ->.
    apply commit_startOrError.
    open_component c. cbn in Ha, Hr, Hc, Hb, Hf. injection Hr as -> -> -> ->. subst.
    unfold startOrError; cbn; auto.
  - rewrite Hb in Hstep. discriminate.
  - rewrite Hf in Hstep. discriminate.
  - injection Hstep as <-. exact Hinv.
  - rewrite Hc, lookup_nil in Hstep. discriminate.
Qed.

(** X1. From the initial configuration every sequence of events the
    component takes ends on the start card or the error card, with no stream
    held, no video element, no crop session and nothing in flight: the
    camera card is never shown. *)
Lemma camera_card_unreachable (events : list Event) (c : Component) :
  run events initial = Some c -> startOrError c.
Proof.
  assert (G : forall c0, startOrError c0 -> run events c0 = Some c -> startOrError c).
  { induction events as [|e rest IH]; intros c0 H0 Hrun; cbn [run] in Hrun.
    - injection Hrun as <-. exact H0.
    - destruct (step c0 e) as [c1|] eqn:Hs; [|discriminate].
      apply (IH c1); [apply (step_startOrError c0 c1 e H0 Hs) | exact Hrun]. }
  apply G. unfold startOrError. cbn. auto.
Qed.

(** C2 fails on two clicks on Scan Chessboard. After the first grant one
    stream is running; the second grant starts another without stopping it.
    Both streams keep running, neither is in [streamRef], and neither a reset
    nor the removal of the component stops them. A grant that arrives late
    likewise leaves its stream running next to an open crop session, and
    next to a submission in flight. *)
Theorem two_camera_streams_live :
  (exists c1 c2,
     run (firstn 3 scanTwice) initial = Some c1
     /\ liveStreams c1 = 1
     /\ step c1 (GetUserMediaResolved 1) = Some c2
     /\ run scanTwice initial = Some c2
     /\ liveStreams c2 = 2
     /\ streamRef (refs c2) = None
     /\ liveStreams (commit (handleReset c2)) = 2
     /\ liveStreams (unmount c2) = 2)
  /\ (exists c3,
        run grantWhileCropping cameraOpenedPending = Some c3
        /\ liveStreams c3 = 1 /\ liveCroppers c3 = 1)
  /\ (exists c4,
        run grantWhileSubmitting cameraOpenedPending = Some c4
        /\ liveStreams c4 = 1 /\ inFlight c4 = 1).
Proof.
  split; [|split].
  - let v1 := eval vm_compute in (default initial (run (firstn 3 scanTwice) initial)) in
    let v2 := eval vm_compute in (default initial (run scanTwice initial)) in
    exists v1, v2.
    vm_compute. repeat split.
  - let v := eval vm_compute in
      (default initial (run grantWhileCropping cameraOpenedPending)) in
    exists v.
    vm_compute. repeat split.
  - let v := eval vm_compute in
      (default initial (run grantWhileSubmitting cameraOpenedPending)) in
    exists v.
    vm_compute. repeat split.
Qed.

(** With the video element in the document the second grant replaces the
    first stream in [streamRef] and on the element without stopping it: the
    first stream still runs after [cleanupCamera]. *)
Lemma stream_replaced_without_release :
  let c :=
    (requestCameraPermission >> requestCameraPermission
     >> getUserMedia_resolved 1 >> getUserMedia_resolved 1) initialWithVideo in
  liveStreams c = 2
  /\ streamRef (refs c) = Some 1
  /\ liveStreams (cleanupCamera c) = 1
  /\ streams (devices (cleanupCamera c)) = [[Live]; [Ended]].
Proof. vm_compute. repeat split. Qed.

(** ** Leaving the camera card and the crop card *)

(** The removal of the component stops no track: the cleanup React runs is
    that of the effect, which destroys the cropper only. *)
Lemma unmount_streams (c : Component) : streams (devices (unmount c)) = streams (devices c).
Proof.
  unfold unmount, seq. cbn [set_imageRef set_videoRef with_refs devices].
  destruct (effectCleanup c); [apply effect_cleanup_streams | reflexivity].
Qed.





Lemma submit_and_retake_destroy_cropper :
  liveCroppers cropping = 1
  /\ step cropping (Click Submit None) = Some (commit (handleSubmit cropping))
  /\ liveCroppers (commit (handleSubmit cropping)) = 0
  /\ step cropping (Click Retake None) = Some (commit (handleRetake cropping))
  /\ liveCroppers (commit (handleRetake cropping)) = 0
  /\ liveCroppers (unmount cropping) = 0.
Proof. vm_compute. repeat split. Qed.

(** [cropperRef] keeps the destroyed cropper, so after Retake the guard of
    [handleSubmit] still passes: Submit then sets [Loading], the null canvas
    makes [.toBlob] throw, and the loading card, which has no button, stays
    with nothing in flight. *)
Lemma submit_after_retake_stalls :
  exists c,
    run [Click Retake None; Click Submit None] cropping = Some c
    /\ appState (hooks c) = AppState.Loading
    /\ inFlight c = 0
    /\ view_buttons (renderContent c) = [].
Proof.
  let v := eval vm_compute in
    (default initial (run [Click Retake None; Click Submit None] cropping)) in
  exists v.
  vm_compute. repeat split.
Qed.

(** * Further properties *)

(** ** More frame lemmas *)

Lemma cleanupCamera_cropperRef (c : Component) :
  cropperRef (refs (cleanupCamera c)) = cropperRef (refs c).
Proof. unfold cleanupCamera. open_component c; simpl. destruct s, v; reflexivity. Qed.

Lemma cleanupCamera_croppers (c : Component) :
  croppers (devices (cleanupCamera c)) = croppers (devices c).
Proof. unfold cleanupCamera. open_component c; simpl. destruct s, v; reflexivity. Qed.

Lemma cleanupCamera_cropperLoaded (c : Component) :
  cropperLoaded (devices (cleanupCamera c)) = cropperLoaded (devices c).
Proof. unfold cleanupCamera. open_component c; simpl. destruct s, v; reflexivity. Qed.

Lemma cleanupCamera_pendingGum (c : Component) :
  pendingGum (devices (cleanupCamera c)) = pendingGum (devices c).
Proof. unfold cleanupCamera. open_component c; simpl. destruct s, v; reflexivity. Qed.

Lemma cleanupCamera_effect (c : Component) :
  effectDeps (cleanupCamera c) = effectDeps c
  /\ effectCleanup (cleanupCamera c) = effectCleanup c.
Proof. unfold cleanupCamera. open_component c; simpl. destruct s, v; split; reflexivity. Qed.

Lemma effect_cleanup_devices (c : Component) :
  cropperLoaded (devices (effect_cleanup c)) = cropperLoaded (devices c)
  /\ pendingGum (devices (effect_cleanup c)) = pendingGum (devices c)
  /\ length (croppers (devices (effect_cleanup c))) = length (croppers (devices c)).
Proof.
  unfold effect_cleanup. destruct (cropperRef (refs c)); repeat split.
  cbn [set_croppers with_devices devices croppers]. apply length_alter.
Qed.

Lemma effect_cleanup_effect (c : Component) :
  effectDeps (effect_cleanup c) = effectDeps c
  /\ effectCleanup (effect_cleanup c) = effectCleanup c.
Proof. unfold effect_cleanup. destruct (cropperRef (refs c)); split; reflexivity. Qed.

(** *** The render, case by case *)

Lemma before_effect_hooks (c : Component) : hooks (before_effect c) = hooks c.
Proof.
  unfold before_effect. destruct (effectCleanup c); [rewrite effect_cleanup_hooks|]; reflexivity.
Qed.

Lemma before_effect_outbox (c : Component) : outbox (before_effect c) = outbox c.
Proof.
  unfold before_effect. destruct (effectCleanup c); [rewrite effect_cleanup_outbox|]; reflexivity.
Qed.

Lemma before_effect_refs (c : Component) : refs (before_effect c) = refs (attach_refs c).
Proof.
  unfold before_effect. destruct (effectCleanup c); [rewrite effect_cleanup_refs|]; reflexivity.
Qed.

Lemma before_effect_attached (c : Component) :
  attach_refs (before_effect c) = before_effect c.
Proof.
  unfold before_effect. destruct (effectCleanup c).
  - rewrite attach_refs_effect_cleanup, attach_refs_idem. reflexivity.
  - apply attach_refs_idem.
Qed.

Lemma before_effect_devices (c : Component) :
  streams (devices (before_effect c)) = streams (devices c)
  /\ cropperLoaded (devices (before_effect c)) = cropperLoaded (devices c)
  /\ pendingGum (devices (before_effect c)) = pendingGum (devices c)
  /\ length (croppers (devices (before_effect c))) = length (croppers (devices c)).
Proof.
  unfold before_effect. destruct (effectCleanup c); [|repeat split].
  destruct (effect_cleanup_devices (attach_refs c)) as (Hl & Hg & Hn).
  rewrite effect_cleanup_streams, Hl, Hg, Hn. repeat split.
Qed.

Lemma before_effect_croppers (c : Component) :
  croppers (devices (before_effect c)) =
  match cropperRef (refs c) with
  | Some k => if effectCleanup c then alter destroy k (croppers (devices c))
              else croppers (devices c)
  | None => croppers (devices c)
  end.
Proof.
  unfold before_effect, effect_cleanup.
  change (cropperRef (refs (attach_refs c))) with (cropperRef (refs c)).
  destruct (effectCleanup c), (cropperRef (refs c)); reflexivity.
Qed.

Lemma attach_refs_imageRef (c : Component) :
  appState (hooks c) = AppState.ImageCaptured -> imageRef (refs (attach_refs c)) = true.
Proof. open_component c. cbn [hooks appState]. intros ->. reflexivity. Qed.

Lemma attach_refs_on_crop_card (c : Component) :
  appState (hooks c) = AppState.ImageCaptured ->
  videoRef (refs (attach_refs c)) = None
  /\ cropperRef (refs (attach_refs c)) = cropperRef (refs c)
  /\ streamRef (refs (attach_refs c)) = streamRef (refs c).
Proof. open_component c. cbn [hooks appState]. intros ->. repeat split. Qed.

Lemma commit1_runs_effect (c : Component) :
  same_deps (effectDeps c) (appState (hooks c), imageDataUrl (hooks c)) = false ->
  commit1 c = effect_body (appState (hooks c), imageDataUrl (hooks c)) (before_effect c).
Proof. intros H. rewrite commit1_unfold, H. reflexivity. Qed.

(** The dependencies changed and the effect has nothing to do: the render
    runs the previous cleanup and records the dependencies. *)
Lemma commit_effect_off (c : Component) :
  same_deps (effectDeps c) (appState (hooks c), imageDataUrl (hooks c)) = false ->
  AppState.eqb (appState (hooks c)) AppState.ImageCaptured
    && truthy_url (imageDataUrl (hooks c)) = false ->
  commit c = with_effect (appState (hooks c), imageDataUrl (hooks c)) true (before_effect c).
Proof.
  intros Hd Hoff.
  assert (H1 : commit1 c =
               with_effect (appState (hooks c), imageDataUrl (hooks c)) true (before_effect c)).
  { rewrite (commit1_runs_effect c Hd). unfold effect_body. rewrite before_effect_hooks.
    destruct (AppState.eqb _ _); [|reflexivity].
    cbn [andb] in Hoff. rewrite Hoff, andb_false_r. reflexivity. }
  unfold commit, seq. rewrite H1. apply commit1_settled.
  - rewrite attach_refs_with_effect, before_effect_attached. reflexivity.
  - cbn [effectDeps with_effect hooks]. rewrite before_effect_hooks. apply same_deps_refl.
Qed.

(** The dependencies changed on the crop card with an image and the crop
    engine loaded: the render constructs one cropper and keeps it in
    [cropperRef]. *)
Lemma commit_effect_loaded (c : Component) :
  same_deps (effectDeps c) (appState (hooks c), imageDataUrl (hooks c)) = false ->
  appState (hooks c) = AppState.ImageCaptured ->
  truthy_url (imageDataUrl (hooks c)) = true ->
  cropperLoaded (devices c) = true ->
  commit c =
  with_effect (appState (hooks c), imageDataUrl (hooks c)) true
    (set_cropperRef (Some (length (croppers (devices (before_effect c)))))
       (set_croppers (croppers (devices (before_effect c)) ++ [{| destroyed := false |}])
          (before_effect c))).
Proof.
  intros Hd Ha Hu Hl.
  destruct (before_effect_devices c) as (_ & Hl' & _ & _).
  assert (H1 : commit1 c =
    with_effect (appState (hooks c), imageDataUrl (hooks c)) true
      (set_cropperRef (Some (length (croppers (devices (before_effect c)))))
         (set_croppers (croppers (devices (before_effect c)) ++ [{| destroyed := false |}])
            (before_effect c)))).
  { rewrite (commit1_runs_effect c Hd). unfold effect_body.
    rewrite before_effect_hooks, before_effect_refs, (attach_refs_imageRef c Ha), Ha, Hu, Hl', Hl.
    reflexivity. }
  unfold commit, seq. rewrite H1. apply commit1_settled.
  - rewrite attach_refs_with_effect, attach_refs_new_cropper, before_effect_attached.
    reflexivity.
  - cbn [effectDeps with_effect hooks set_cropperRef set_croppers with_refs with_devices].
    rewrite before_effect_hooks. apply same_deps_refl.
Qed.

(** The same with the crop engine missing: the effect reports it, and the
    render this causes leaves the error card. *)
Lemma commit_effect_missing (c : Component) :
  same_deps (effectDeps c) (appState (hooks c), imageDataUrl (hooks c)) = false ->
  appState (hooks c) = AppState.ImageCaptured ->
  truthy_url (imageDataUrl (hooks c)) = true ->
  cropperLoaded (devices c) = false ->
  commit c =
  with_effect (AppState.Error, imageDataUrl (hooks c)) true
    (attach_refs ((setError (Some cropperMissingMessage) >> setAppState AppState.Error)
                    (before_effect c))).
Proof.
  intros Hd Ha Hu Hl.
  destruct (before_effect_devices c) as (_ & Hl' & _ & _).
  assert (H1 : commit1 c =
    (setError (Some cropperMissingMessage) >> setAppState AppState.Error
     >> with_effect (appState (hooks c), imageDataUrl (hooks c)) false) (before_effect c)).
  { rewrite (commit1_runs_effect c Hd). unfold effect_body.
    rewrite before_effect_hooks, before_effect_refs, (attach_refs_imageRef c Ha), Ha, Hu, Hl', Hl.
    reflexivity. }
  unfold commit. unfold seq at 1. rewrite H1.
  pose proof (before_effect_hooks c) as Hh.
  remember (before_effect c) as x eqn:Ex. clear Ex.
  rewrite commit1_unfold. unfold seq.
  cbn [effectDeps with_effect hooks setAppState setError with_hooks appState imageDataUrl
       effectCleanup].
  rewrite Hh, Ha. unfold same_deps. cbn [fst snd AppState.eqb andb].
  unfold effect_body.
  change (hooks (attach_refs ?y)) with (hooks y).
  cbn [hooks with_effect setAppState setError with_hooks appState AppState.eqb andb].
  rewrite attach_refs_with_effect. reflexivity.
Qed.

(** *** Capture *)

Lemma step_click_capture (c : Component) (frame : option string) :
  appState (hooks c) = AppState.CameraOpen ->
  step c (Click Capture frame) = Some (commit (handleCapture frame c)).
Proof.
  intros H. unfold step, react, renderContent, onClick. rewrite H.
  rewrite rerender_shown; [reflexivity|]. intros Hc.
  unfold handleCapture. destruct (videoRef (refs c)); [|exact Hc].
  destruct frame; [|exact Hc]. apply renders_off.
  unfold seq. rewrite cleanupCamera_hooks. discriminate.
Qed.

(** [handleCapture] with a video element and a frame, cell by cell. *)
Lemma handleCapture_frame (c : Component) (v : HTMLVideoElement) (url : string) :
  videoRef (refs c) = Some v ->
  let h := handleCapture (Some url) c in
  hooks h = hooks ((setImageDataUrl (Some url) >> setAppState AppState.ImageCaptured) c)
  /\ outbox h = outbox c
  /\ streamRef (refs h) = None
  /\ cropperRef (refs h) = cropperRef (refs c)
  /\ croppers (devices h) = croppers (devices c)
  /\ cropperLoaded (devices h) = cropperLoaded (devices c)
  /\ effectDeps h = effectDeps c
  /\ effectCleanup h = effectCleanup c
  /\ running (sessionTracks c h) = 0.
Proof.
  intros Hv. cbv zeta. unfold handleCapture. rewrite Hv. unfold seq.
  remember (setAppState AppState.ImageCaptured (setImageDataUrl (Some url) c)) as c0 eqn:E0.
  assert (Hs : streamRef (refs c) = streamRef (refs c0)) by (subst c0; reflexivity).
  destruct (cleanupCamera_effect c0) as (Hd & Hc).
  rewrite cleanupCamera_hooks, cleanupCamera_outbox, cleanupCamera_streamRef,
    cleanupCamera_cropperRef, cleanupCamera_croppers, cleanupCamera_cropperLoaded, Hd, Hc.
  repeat split; try (subst c0; reflexivity).
  unfold sessionTracks. rewrite Hs. apply (cleanupCamera_session_stopped c0).
Qed.

(** X3. On the camera card, a click on Capture that reads a frame, with the
    crop engine loaded, shows the crop card with that frame, releases the
    camera, and opens exactly one crop session: the render constructs one new
    cropper, not destroyed, and [cropperRef] holds it. *)
Theorem capture_opens_one_crop_session
    (c : Component) (v : HTMLVideoElement) (url : string) :
  appState (hooks c) = AppState.CameraOpen ->
  fst (effectDeps c) = AppState.CameraOpen ->
  videoRef (refs c) = Some v ->
  cropperLoaded (devices c) = true ->
  url <> "" ->
  exists c',
    step c (Click Capture (Some url)) = Some c'
    /\ appState (hooks c') = AppState.ImageCaptured
    /\ imageDataUrl (hooks c') = Some url
    /\ view_img (renderContent c') = Some url
    /\ cropperRef (refs c') = Some (length (croppers (devices c)))
    /\ croppers (devices c') !! length (croppers (devices c)) = Some {| destroyed := false |}
    /\ length (croppers (devices c')) = S (length (croppers (devices c)))
    /\ streamRef (refs c') = None
    /\ videoRef (refs c') = None
    /\ running (sessionTracks c c') = 0.
Proof.
  intros Ha Hd Hv Hl Hurl.
  exists (commit (handleCapture (Some url) c)).
  split; [apply step_click_capture, Ha|].
  destruct (handleCapture_frame c v url Hv) as (Hh & Ho & Hs & Hk & Hcs & Hcl & Hed & Hec & Hrun).
  remember (handleCapture (Some url) c) as h eqn:Eh. clear Eh.
  assert (Hah : appState (hooks h) = AppState.ImageCaptured) by (rewrite Hh; reflexivity).
  assert (Huh : imageDataUrl (hooks h) = Some url) by (rewrite Hh; reflexivity).
  assert (Hdeps : same_deps (effectDeps h) (appState (hooks h), imageDataUrl (hooks h)) = false).
  { rewrite Hed, Hah. unfold same_deps. cbn [fst]. rewrite Hd. reflexivity. }
  assert (Htr : truthy_url (imageDataUrl (hooks h)) = true).
  { rewrite Huh. apply (truthy_string_nonempty url Hurl). }
  rewrite (commit_effect_loaded h Hdeps Hah Htr) by (rewrite Hcl; exact Hl).
  destruct (before_effect_devices h) as (Hst & _ & _ & Hlen).
  destruct (attach_refs_on_crop_card h Hah) as (Hvid & _ & Hsr).
  pose proof (before_effect_hooks h) as Hbh.
  pose proof (before_effect_refs h) as Hbr.
  remember (before_effect h) as x eqn:Ex. clear Ex.
  unfold renderContent, sessionTracks.
  cbn [hooks refs devices with_effect set_cropperRef set_croppers with_refs with_devices
       cropperRef croppers streamRef videoRef streams].
  rewrite Hbh, Hbr, Hah, Huh, Hlen, Hcs, Hsr, Hs, Hvid, Hst.
  cbn [view_img]. rewrite (truthy_string_nonempty url Hurl).
  repeat split.
  - apply list_lookup_middle. rewrite Hlen, Hcs. reflexivity.
  - rewrite length_app, Hlen, Hcs. cbn [length]. lia.
  - exact Hrun.
Qed.

(** X3 on the camera card of the examples. *)
Lemma capture_opens_one_crop_session_witness :
  exists c',
    step cameraOpened (Click Capture (Some frameUrl)) = Some c'
    /\ appState (hooks c') = AppState.ImageCaptured
    /\ cropperRef (refs c') = Some 0
    /\ length (croppers (devices c')) = 1.
Proof.
  destruct (capture_opens_one_crop_session cameraOpened {| srcObject := Some 0 |} frameUrl)
    as (c' & Hs & Ha & _ & _ & Hk & _ & Hn & _); try reflexivity; try discriminate.
  exists c'. repeat split; assumption.
Defined.

(** X4. The same click with [window.Cropper] not loaded shows the error
    card with the message of the missing crop engine and the Try Again
    button. The camera is released and the captured frame stays stored, no
    cropper is constructed, [cropperRef] is as before, and no toast is
    raised. *)
Theorem capture_without_crop_engine
    (c : Component) (v : HTMLVideoElement) (url : string) :
  appState (hooks c) = AppState.CameraOpen ->
  fst (effectDeps c) = AppState.CameraOpen ->
  videoRef (refs c) = Some v ->
  cropperLoaded (devices c) = false ->
  url <> "" ->
  exists c',
    step c (Click Capture (Some url)) = Some c'
    /\ appState (hooks c') = AppState.Error
    /\ error (hooks c') = Some cropperMissingMessage
    /\ imageDataUrl (hooks c') = Some url
    /\ view_content (renderContent c') = ErrorText (Some cropperMissingMessage)
    /\ view_buttons (renderContent c') = [TryAgain]
    /\ length (croppers (devices c')) = length (croppers (devices c))
    /\ cropperRef (refs c') = cropperRef (refs c)
    /\ streamRef (refs c') = None
    /\ running (sessionTracks c c') = 0
    /\ outbox c' = outbox c.
Proof.
  intros Ha Hd Hv Hl Hurl.
  exists (commit (handleCapture (Some url) c)).
  split; [apply step_click_capture, Ha|].
  destruct (handleCapture_frame c v url Hv) as (Hh & Ho & Hs & Hk & Hcs & Hcl & Hed & Hec & Hrun).
  remember (handleCapture (Some url) c) as h eqn:Eh. clear Eh.
  assert (Hah : appState (hooks h) = AppState.ImageCaptured) by (rewrite Hh; reflexivity).
  assert (Huh : imageDataUrl (hooks h) = Some url) by (rewrite Hh; reflexivity).
  assert (Hdeps : same_deps (effectDeps h) (appState (hooks h), imageDataUrl (hooks h)) = false).
  { rewrite Hed, Hah. unfold same_deps. cbn [fst]. rewrite Hd. reflexivity. }
  assert (Htr : truthy_url (imageDataUrl (hooks h)) = true).
  { rewrite Huh. apply (truthy_string_nonempty url Hurl). }
  rewrite (commit_effect_missing h Hdeps Hah Htr) by (rewrite Hcl; exact Hl).
  destruct (before_effect_devices h) as (Hst & _ & _ & Hlen).
  destruct (attach_refs_on_crop_card h Hah) as (_ & _ & Hsr).
  pose proof (before_effect_hooks h) as Hbh.
  pose proof (before_effect_refs h) as Hbr.
  pose proof (before_effect_outbox h) as Hbo.
  remember (before_effect h) as x eqn:Ex. clear Ex.
  unfold renderContent, sessionTracks, seq.
  change (hooks (with_effect ?d ?b (attach_refs ?y))) with (hooks y).
  change (outbox (with_effect ?d ?b (attach_refs ?y))) with (outbox y).
  change (devices (with_effect ?d ?b (attach_refs ?y))) with (devices y).
  change (cropperRef (refs (with_effect ?d ?b (attach_refs ?y)))) with (cropperRef (refs y)).
  change (streamRef (refs (with_effect ?d ?b (attach_refs ?y)))) with (streamRef (refs y)).
  cbn [hooks refs devices outbox setAppState setError with_hooks appState error imageDataUrl
       view_content view_buttons].
  rewrite Hbh, Hbr, Hbo, Huh, Hlen, Hcs, Hst, Ho, Hsr, Hs.
  change (cropperRef (refs (attach_refs h))) with (cropperRef (refs h)). rewrite Hk.
  repeat split. exact Hrun.
Qed.

(** X4 on the camera card of the examples, the crop engine not loaded. *)
Lemma capture_without_crop_engine_witness :
  exists c',
    step cameraOpenedNoCropper (Click Capture (Some frameUrl)) = Some c'
    /\ appState (hooks c') = AppState.Error
    /\ error (hooks c') = Some cropperMissingMessage
    /\ length (croppers (devices c')) = 0.
Proof.
  destruct (capture_without_crop_engine cameraOpenedNoCropper {| srcObject := Some 0 |} frameUrl)
    as (c' & Hs & Ha & He & _ & _ & _ & Hn & _); try reflexivity; try discriminate.
  exists c'. repeat split; assumption.
Defined.

(** *** Retake *)

Lemma step_click_retake (c : Component) (frame : option string) :
  appState (hooks c) = AppState.ImageCaptured ->
  step c (Click Retake frame) = Some (commit (handleRetake c)).
Proof.
  intros H. unfold step, react, renderContent, onClick. rewrite H.
  rewrite rerender_off; [reflexivity|].
  unfold handleRetake, requestCameraPermission, seq.
  cbn [set_pendingGum with_devices hooks]. rewrite cleanupCamera_hooks.
  cbn [setError setImageDataUrl with_hooks hooks appState]. rewrite H. discriminate.
Qed.

(** [handleRetake], cell by cell. *)
Lemma handleRetake_frame (c : Component) :
  let h := handleRetake c in
  hooks h = hooks ((setImageDataUrl None >> setError None) c)
  /\ outbox h = outbox c
  /\ streamRef (refs h) = None
  /\ cropperRef (refs h) = cropperRef (refs c)
  /\ croppers (devices h) = croppers (devices c)
  /\ pendingGum (devices h) = S (pendingGum (devices c))
  /\ effectDeps h = effectDeps c
  /\ effectCleanup h = effectCleanup c
  /\ running (sessionTracks c h) = 0.
Proof.
  cbv zeta. unfold handleRetake, requestCameraPermission, seq.
  remember (setError None (setImageDataUrl None c)) as c0 eqn:E0.
  assert (Hs : streamRef (refs c) = streamRef (refs c0)) by (subst c0; reflexivity).
  destruct (cleanupCamera_effect c0) as (Hd & Hc).
  pose proof (cleanupCamera_hooks c0) as Hh.
  pose proof (cleanupCamera_outbox c0) as Ho.
  pose proof (cleanupCamera_streamRef c0) as Hsr.
  pose proof (cleanupCamera_cropperRef c0) as Hk.
  pose proof (cleanupCamera_croppers c0) as Hcs.
  pose proof (cleanupCamera_pendingGum c0) as Hg.
  pose proof (cleanupCamera_session_stopped c0) as Hrun.
  unfold sessionTracks in *. rewrite <- Hs in Hrun.
  remember (cleanupCamera c0) as c1 eqn:E1. clear E1.
  cbn [set_pendingGum with_devices hooks outbox refs devices croppers pendingGum streams
       effectDeps effectCleanup].
  rewrite Hh, Ho, Hsr, Hk, Hcs, Hg, Hd, Hc. subst c0. repeat split. exact Hrun.
Qed.

(** X5. On the crop card, where the effect last ran with a captured image
    and returned its cleanup, a click on Retake destroys the cropper held in
    [cropperRef], clears the captured image and the error, releases the
    stream and leaves one more camera request pending. Until that request is
    answered the crop card stays, with an empty image and both buttons, and
    [cropperRef] still holds the destroyed cropper. *)
Theorem retake_destroys_crop_session
    (c : Component) (k : nat) (u : string) (frame : option string) :
  appState (hooks c) = AppState.ImageCaptured ->
  effectDeps c = (AppState.ImageCaptured, Some u) ->
  effectCleanup c = true ->
  cropperRef (refs c) = Some k ->
  exists c',
    step c (Click Retake frame) = Some c'
    /\ appState (hooks c') = AppState.ImageCaptured
    /\ imageDataUrl (hooks c') = None
    /\ error (hooks c') = None
    /\ view_img (renderContent c') = Some ""
    /\ view_buttons (renderContent c') = [Retake; Submit]
    /\ croppers (devices c') = alter destroy k (croppers (devices c))
    /\ cropperRef (refs c') = Some k
    /\ pendingGum (devices c') = S (pendingGum (devices c))
    /\ streamRef (refs c') = None
    /\ running (sessionTracks c c') = 0
    /\ outbox c' = outbox c.
Proof.
  intros Ha Hd Hc Hk.
  exists (commit (handleRetake c)).
  split; [apply step_click_retake, Ha|].
  destruct (handleRetake_frame c) as (Hh & Ho & Hs & Hkh & Hcs & Hg & Hed & Hec & Hrun).
  remember (handleRetake c) as h eqn:Eh. clear Eh.
  assert (Hah : appState (hooks h) = AppState.ImageCaptured) by (rewrite Hh; exact Ha).
  assert (Huh : imageDataUrl (hooks h) = None) by (rewrite Hh; reflexivity).
  assert (Heh : error (hooks h) = None) by (rewrite Hh; reflexivity).
  assert (Hdeps : same_deps (effectDeps h) (appState (hooks h), imageDataUrl (hooks h)) = false).
  { rewrite Hed, Hd, Hah, Huh. reflexivity. }
  assert (Hoff : AppState.eqb (appState (hooks h)) AppState.ImageCaptured
                 && truthy_url (imageDataUrl (hooks h)) = false).
  { rewrite Huh. apply andb_false_r. }
  rewrite (commit_effect_off h Hdeps Hoff).
  destruct (before_effect_devices h) as (Hst & _ & Hpg & _).
  destruct (attach_refs_on_crop_card h Hah) as (_ & Hkr & Hsr).
  pose proof (before_effect_croppers h) as Hbc. rewrite Hkh, Hk, Hec, Hc, Hcs in Hbc.
  pose proof (before_effect_hooks h) as Hbh.
  pose proof (before_effect_refs h) as Hbr.
  pose proof (before_effect_outbox h) as Hbo.
  remember (before_effect h) as x eqn:Ex. clear Ex.
  unfold renderContent, sessionTracks.
  cbn [hooks refs devices outbox with_effect].
  rewrite Hbh, Hbr, Hbo, Hah, Huh, Heh, Hbc, Hkr, Hkh, Hk, Hpg, Hg, Hsr, Hs, Hst, Ho.
  repeat split. exact Hrun.
Qed.

(** X5 on the crop card of the examples. *)
Lemma retake_destroys_crop_session_witness :
  exists c',
    step cropping (Click Retake None) = Some c'
    /\ croppers (devices c') = [{| destroyed := true |}]
    /\ cropperRef (refs c') = Some 0
    /\ pendingGum (devices c') = 1.
Proof.
  destruct (retake_destroys_crop_session cropping 0 frameUrl None)
    as (c' & Hs & _ & _ & _ & _ & _ & Hcs & Hk & Hg & _); try reflexivity.
  exists c'. repeat split; assumption.
Defined.

(** *** The loading card *)

Lemma commit_videoRef_off (c : Component) :
  AppState.eqb (appState (hooks c)) AppState.CameraOpen = false ->
  AppState.eqb (appState (hooks c)) AppState.ImageCaptured = false ->
  videoRef (refs (commit c)) = None.
Proof.
  intros H1 H2. unfold commit, seq. apply commit1_videoRef.
  rewrite (commit1_hooks c H2). exact H1.
Qed.

Lemma getUserMedia_resolved_no_video (ntracks : nat) (c : Component) :
  videoRef (refs c) = None ->
  getUserMedia_resolved ntracks c =
  (set_pendingGum (pred (pendingGum (devices c)))
   >> set_streams (streams (devices c) ++ [repeat Live ntracks])
   >> setHasCameraPermission (Some true)) c.
Proof.
  intros Hv. unfold getUserMedia_resolved. cbv zeta. unfold seq.
  change (refs (setHasCameraPermission (Some true)
                  (set_streams (streams (devices c) ++ [repeat Live ntracks])
                     (set_pendingGum (pred (pendingGum (devices c))) c))))
    with (refs c).
  rewrite Hv. reflexivity.
Qed.

(** X6. On the crop card, when [cropperRef] holds a destroyed cropper (as
    after Retake) and nothing is in flight, a click on Submit is not refused
    by the guard of [handleSubmit]: the state becomes [Loading], no encoding
    and no request is started, no error is stored and no toast raised, and
    the card shown has no button. *)
Theorem submit_on_destroyed_cropper_stalls
    (c : Component) (k : nat) (cr : Cropper) (frame : option string) :
  appState (hooks c) = AppState.ImageCaptured ->
  cropperRef (refs c) = Some k ->
  croppers (devices c) !! k = Some cr ->
  destroyed cr = true ->
  pendingBlob (outbox c) = [] ->
  pendingFetch (outbox c) = 0 ->
  exists c',
    step c (Click Submit frame) = Some c'
    /\ stalled c'
    /\ view_buttons (renderContent c') = []
    /\ error (hooks c') = error (hooks c)
    /\ outbox c' = outbox c.
Proof.
  intros Ha Hk Hcr Hdead Hb Hf.
  exists (commit (handleSubmit c)).
  split; [apply step_click_submit, Ha|].
  assert (Hs : handleSubmit c = setAppState AppState.Loading c).
  { apply (handleSubmit_null_canvas c k Hk), (destroyed_not_ready c k cr Hcr Hdead). }
  rewrite Hs.
  assert (Hh : hooks (commit (setAppState AppState.Loading c))
               = hooks (setAppState AppState.Loading c)).
  { apply commit_hooks. reflexivity. }
  assert (Hv : videoRef (refs (commit (setAppState AppState.Loading c))) = None).
  { apply commit_videoRef_off; reflexivity. }
  pose proof (commit_outbox (setAppState AppState.Loading c)) as Ho.
  remember (commit (setAppState AppState.Loading c)) as c' eqn:E. clear E.
  unfold stalled, renderContent. rewrite Hh, Hv, Ho.
  cbn [hooks outbox setAppState with_hooks appState error view_buttons].
  rewrite Hb, Hf. repeat split.
Qed.

(** X6 after Retake on the crop card of the examples. *)
Lemma submit_on_destroyed_cropper_stalls_witness :
  exists c c',
    step cropping (Click Retake None) = Some c
    /\ step c (Click Submit None) = Some c'
    /\ stalled c'.
Proof.
  exists (commit (handleRetake cropping)).
  destruct (submit_on_destroyed_cropper_stalls (commit (handleRetake cropping)) 0
              {| destroyed := true |} None)
    as (c' & Hs & Hst & _); try (vm_compute; reflexivity).
  exists c'. split; [vm_compute; reflexivity|]. split; assumption.
Defined.

Lemma step_stalled (c c' : Component) (e : Event) :
  stalled c -> e <> GetUserMediaRejected -> step c e = Some c' ->
  stalled c'
  /\ fen (hooks c') = fen (hooks c)
  /\ error (hooks c') = error (hooks c)
  /\ requests (outbox c') = requests (outbox c).
Proof.
  intros (Ha & Hv & Hb & Hf) Hne Hstep.
  destruct e as [b frame| ntracks | | data | r | | k0]; unfold step in Hstep; cbn [react] in Hstep.
  - unfold renderContent in Hstep. rewrite Ha in Hstep. discriminate Hstep.
  - destruct (pendingGum (devices c)) eqn:Hg; [discriminate|].
    apply shown_commit in Hstep as ->.
    rewrite (getUserMedia_resolved_no_video ntracks c Hv).
    remember ((set_pendingGum (pred (pendingGum (devices c)))
               >> set_streams (streams (devices c) ++ [repeat Live ntracks])
               >> setHasCameraPermission (Some true)) c) as h eqn:Eh.
    assert (Hah : appState (hooks h) = AppState.Loading) by (subst h; exact Ha).
    assert (Hfh : fen (hooks h) = fen (hooks c)) by (subst h; reflexivity).
    assert (Heh : error (hooks h) = error (hooks c)) by (subst h; reflexivity).
    assert (Hoh : outbox h = outbox c) by (subst h; reflexivity).
    clear Eh.
    assert (Hh : hooks (commit h) = hooks h) by (apply commit_hooks; rewrite Hah; reflexivity).
    assert (Hvh : videoRef (refs (commit h)) = None)
      by (apply commit_videoRef_off; rewrite Hah; reflexivity).
    unfold stalled. rewrite Hh, Hvh, commit_outbox, Hoh, Hah, Hfh, Heh, Hb, Hf.
    repeat split.
  - congruence.
  - rewrite Hb in Hstep. discriminate.
  - rewrite Hf in Hstep. discriminate.
  - injection Hstep as <-. unfold stalled.
    cbn [set_cropperLoaded with_devices hooks refs outbox]. repeat split; assumption.
  - destruct (croppers (devices c) !! k0) as [cr|]; [|discriminate].
    destruct (_ || _); [discriminate|]. injection Hstep as <-. unfold stalled.
    cbn [set_readyCroppers with_devices hooks refs outbox]. repeat split; assumption.
Qed.

(** X7. The loading card with no encoding and no fetch pending is left by
    one event only, the refusal of a pending camera request: after any
    sequence of other events the component takes, it is still on the loading
    card with nothing in flight, the stored FEN and error and the requests
    issued as they were. No click is taken there. *)
Theorem loading_card_dead_end (events : list Event) (c c' : Component) :
  stalled c ->
  Forall (fun e => e <> GetUserMediaRejected) events ->
  run events c = Some c' ->
  stalled c'
  /\ view_buttons (renderContent c') = []
  /\ fen (hooks c') = fen (hooks c)
  /\ error (hooks c') = error (hooks c)
  /\ requests (outbox c') = requests (outbox c).
Proof.
  intros Hst Hev. revert c Hst.
  induction Hev as [|e rest He Hrest IH]; intros c Hst Hrun; cbn [run] in Hrun.
  - injection Hrun as <-. pose proof Hst as (Ha & Hv & Hb & Hf).
    unfold renderContent. rewrite Ha. repeat split; first [assumption | reflexivity].
  - destruct (step c e) as [c1|] eqn:Hs; [|discriminate].
    destruct (step_stalled c c1 e Hst He Hs) as (Hst1 & Hf1 & He1 & Hr1).
    destruct (IH c1 Hst1 Hrun) as (H1 & H2 & H3 & H4 & H5).
    refine (conj H1 (conj H2 _)). rewrite H3, H4, H5, Hf1, He1, Hr1. repeat split.
Qed.

(** X7 after Retake and Submit on the crop card, the camera request then
    granted and the crop engine script loaded. *)
Lemma loading_card_dead_end_witness :
  exists c',
    run grantAndScript stalledAfterRetake = Some c'
    /\ appState (hooks c') = AppState.Loading
    /\ view_buttons (renderContent c') = [].
Proof.
  assert (Hrun : run grantAndScript stalledAfterRetake
                 = Some (default initial (run grantAndScript stalledAfterRetake)))
    by (vm_compute; reflexivity).
  assert (Hst : stalled stalledAfterRetake) by (unfold stalled; vm_compute; repeat split).
  assert (Hev : Forall (fun e => e <> GetUserMediaRejected) grantAndScript)
    by (repeat constructor; discriminate).
  exists (default initial (run grantAndScript stalledAfterRetake)).
  destruct (loading_card_dead_end grantAndScript stalledAfterRetake _ Hst Hev Hrun)
    as ((Ha & _) & Hb & _).
  split; [exact Hrun|]. split; [exact Ha | exact Hb].
Defined.

(** *** Copying the result *)

Lemma accepted_string (status : Z) (fields : list (string * JSON)) (f : string) :
  (200 <= status <= 299)%Z ->
  lookup_field "fen" fields = Some (JStr f) ->
  f <> "" ->
  accepted (Response status (Some (JObj fields))) = Some (JStr f).
Proof.
  intros Hstatus Hfen Hf. unfold accepted. apply response_ok_iff in Hstatus. rewrite Hstatus.
  cbn [get_property]. rewrite Hfen. cbn [truthy].
  rewrite (truthy_string_nonempty f Hf). reflexivity.
Qed.

Lemma copyFenToClipboard_hooks (c : Component) : hooks (copyFenToClipboard c) = hooks c.
Proof.
  unfold copyFenToClipboard. destruct (fen (hooks c)) as [v|]; [|reflexivity].
  destruct (truthy v); reflexivity.
Qed.

Lemma step_click_copy (c : Component) (frame : option string) :
  appState (hooks c) = AppState.FenReceived ->
  step c (Click CopyFen frame) = Some (commit (copyFenToClipboard c)).
Proof.
  intros H. unfold step, react, renderContent, onClick. rewrite H.
  rewrite rerender_same; [reflexivity|]. apply renders_hooks, copyFenToClipboard_hooks.
Qed.

(** A response that is accepted, rendered. *)
Lemma fetch_accepted_outcome (c : Component) (r : FetchResult) (v : JSON) :
  accepted r = Some v ->
  appState (hooks (commit (fetch_settled r c))) = AppState.FenReceived
  /\ fen (hooks (commit (fetch_settled r c))) = Some v
  /\ toasts (outbox (commit (fetch_settled r c))) = toasts (outbox c)
  /\ requests (outbox (commit (fetch_settled r c))) = requests (outbox c).
Proof.
  intros Hacc.
  rewrite commit_outbox, commit_hooks by apply fetch_settled_not_cropping.
  rewrite fetch_settled_unfold, Hacc. repeat split.
Qed.

(** The click on the copy button with a non-empty string stored, rendered. *)
Lemma copy_outcome (c : Component) (f : string) :
  appState (hooks c) = AppState.FenReceived ->
  fen (hooks c) = Some (JStr f) ->
  f <> "" ->
  hooks (commit (copyFenToClipboard c)) = hooks c
  /\ clipboard (outbox (commit (copyFenToClipboard c))) = Some (JStr f)
  /\ toasts (outbox (commit (copyFenToClipboard c))) = (toasts (outbox c) ++ [copiedToast])%list
  /\ requests (outbox (commit (copyFenToClipboard c))) = requests (outbox c).
Proof.
  intros Ha Hf Hne.
  assert (Hcopy : copyFenToClipboard c = (writeText (JStr f) >> toast copiedToast) c).
  { unfold copyFenToClipboard. rewrite Hf. cbn [truthy].
    rewrite (truthy_string_nonempty f Hne). reflexivity. }
  rewrite commit_outbox, Hcopy. split; [|repeat split].
  rewrite commit_hooks; [reflexivity|].
  unfold seq, writeText, toast, with_outbox. cbn [hooks]. rewrite Ha. reflexivity.
Qed.

(** X8. The FEN a valid response carries is the one the Copy button puts on
    the clipboard: after a 2xx response whose [fen] is a non-empty string, a
    click on the copy button of the result card is taken, writes exactly
    that string to the clipboard and raises the one "Copied" toast, and
    leaves the state and the card as they were. *)
Theorem copy_writes_received_fen
    (c : Component) (status : Z) (fields : list (string * JSON)) (f : string) :
  (200 <= status <= 299)%Z ->
  lookup_field "fen" fields = Some (JStr f) ->
  f <> "" ->
  pendingFetch (outbox c) <> 0 ->
  exists c1 c2,
    step c (FetchSettled (Response status (Some (JObj fields)))) = Some c1
    /\ step c1 (Click CopyFen None) = Some c2
    /\ clipboard (outbox c2) = Some (JStr f)
    /\ toasts (outbox c2) = (toasts (outbox c) ++ [copiedToast])%list
    /\ requests (outbox c2) = requests (outbox c)
    /\ hooks c2 = hooks c1
    /\ view_content (renderContent c2) = FenBox (Some (JStr f)).
Proof.
  intros Hstatus Hfen Hf Hpending.
  destruct (pendingFetch (outbox c)) as [|n] eqn:Hn; [congruence|].
  pose proof (accepted_string status fields f Hstatus Hfen Hf) as Hacc.
  assert (Hs1 : step c (FetchSettled (Response status (Some (JObj fields))))
                = Some (commit (fetch_settled (Response status (Some (JObj fields))) c))).
  { apply (step_fetch_settled _ _ n Hn). intros _.
    rewrite fetch_settled_renders, Hacc. reflexivity. }
  destruct (fetch_accepted_outcome c _ _ Hacc) as (Ha1 & Hf1 & Ht1 & Hr1).
  remember (commit (fetch_settled (Response status (Some (JObj fields))) c)) as c1 eqn:E1.
  clear E1.
  pose proof (step_click_copy c1 None Ha1) as Hs2.
  destruct (copy_outcome c1 f Ha1 Hf1 Hf) as (Hh2 & Hc2 & Ht2 & Hr2).
  remember (commit (copyFenToClipboard c1)) as c2 eqn:E2. clear E2.
  exists c1, c2. unfold renderContent.
  rewrite Hc2, Ht2, Ht1, Hr2, Hr1, Hh2, Ha1, Hf1. repeat split; assumption.
Qed.

(** X8 with the empty board received on the loading card. *)
Lemma copy_writes_received_fen_witness :
  exists c1 c2,
    step submitting (FetchSettled fenResponse) = Some c1
    /\ step c1 (Click CopyFen None) = Some c2
    /\ clipboard (outbox c2) = Some (JStr emptyBoard).
Proof.
  destruct (copy_writes_received_fen submitting 200 [("fen", JStr emptyBoard)] emptyBoard)
    as (c1 & c2 & H1 & H2 & H3 & _); try discriminate; try reflexivity; try lia.
  exists c1, c2. repeat split; assumption.
Defined.

(** *** What the component sends *)

Lemma getUserMedia_resolved_outbox (ntracks : nat) (c : Component) :
  outbox (getUserMedia_resolved ntracks c) = outbox c.
Proof. unfold getUserMedia_resolved. cbv zeta. destruct (videoRef _); reflexivity. Qed.

Lemma handleCapture_outbox (frame : option string) (c : Component) :
  outbox (handleCapture frame c) = outbox c.
Proof.
  unfold handleCapture. destruct (videoRef (refs c)); [|reflexivity].
  destruct frame; [|reflexivity]. unfold seq. rewrite cleanupCamera_outbox. reflexivity.
Qed.

Lemma handleSubmit_outbox (c : Component) :
  (pendingBlob (outbox (handleSubmit c)) = pendingBlob (outbox c)
   \/ pendingBlob (outbox (handleSubmit c)) = (pendingBlob (outbox c) ++ [standardJob])%list)
  /\ requests (outbox (handleSubmit c)) = requests (outbox c).
Proof.
  unfold handleSubmit. destruct (cropperRef (refs c)); [|split; [left|]; reflexivity].
  unfold getCroppedCanvas. destruct (cropper_ready _ _); split; try reflexivity;
    [right | left]; reflexivity.
Qed.

Lemma copyFenToClipboard_outbox (c : Component) :
  pendingBlob (outbox (copyFenToClipboard c)) = pendingBlob (outbox c)
  /\ requests (outbox (copyFenToClipboard c)) = requests (outbox c).
Proof.
  unfold copyFenToClipboard. destruct (fen (hooks c)) as [v|]; [|split; reflexivity].
  destruct (truthy v); split; reflexivity.
Qed.

(** What one event does to the pending encodings and to the requests. *)
Lemma step_sends (c c' : Component) (e : Event) :
  step c e = Some c' ->
  (pendingBlob (outbox c') = pendingBlob (outbox c)
   /\ requests (outbox c') = requests (outbox c))
  \/ (pendingBlob (outbox c') = (pendingBlob (outbox c) ++ [standardJob])%list
      /\ requests (outbox c') = requests (outbox c))
  \/ (exists job, pendingBlob (outbox c) = job :: pendingBlob (outbox c')
                  /\ requests (outbox c') = requests (outbox c))
  \/ (exists job bytes,
        pendingBlob (outbox c) = job :: pendingBlob (outbox c')
        /\ requests (outbox c') =
           (requests (outbox c)
            ++ [{| req_url := predictEndpoint; req_method := "POST";
                   req_body := [{| entry_name := "file";
                                   entry_value := {| blob_type := job_mime job;
                                                     blob_data := bytes |};
                                   entry_filename := "chessboard.jpg" |}] |}])%list).
Proof.
  intros Hstep.
  destruct e as [b frame| ntracks | | data | r | | k0]; unfold step in Hstep; cbn [react] in Hstep.
  - destruct (existsb _ _); [|discriminate]. apply shown_commit in Hstep as ->.
    rewrite commit_outbox. destruct b; cbn [onClick].
    + left. unfold requestCameraPermission, seq.
      cbn [set_pendingGum with_devices outbox]. rewrite cleanupCamera_outbox. split; reflexivity.
    + left. change (outbox (handleReset c)) with (outbox (cleanupCamera c)).
      rewrite cleanupCamera_outbox. split; reflexivity.
    + left. rewrite handleCapture_outbox. split; reflexivity.
    + left. destruct (handleRetake_frame c) as (_ & -> & _). split; reflexivity.
    + destruct (handleSubmit_outbox c) as ([-> | ->] & ->); [left | right; left];
        split; reflexivity.
    + left. apply copyFenToClipboard_outbox.
    + left. change (outbox (handleReset c)) with (outbox (cleanupCamera c)).
      rewrite cleanupCamera_outbox. split; reflexivity.
    + left. change (outbox (handleReset c)) with (outbox (cleanupCamera c)).
      rewrite cleanupCamera_outbox. split; reflexivity.
  - destruct (pendingGum (devices c)); [discriminate|]. apply shown_commit in Hstep as ->.
    left. rewrite commit_outbox, getUserMedia_resolved_outbox. split; reflexivity.
  - destruct (pendingGum (devices c)); [discriminate|]. apply shown_commit in Hstep as ->.
    left. rewrite commit_outbox. split; reflexivity.
  - destruct (pendingBlob (outbox c)) as [|job rest] eqn:Hb; [discriminate|].
    apply shown_commit in Hstep as ->. rewrite commit_outbox. unfold toBlob_callback. rewrite Hb.
    destruct data as [bytes|].
    + right. right. right. exists job, bytes. split; reflexivity.
    + right. right. left. exists job. split; reflexivity.
  - destruct (pendingFetch (outbox c)); [discriminate|]. apply shown_commit in Hstep as ->.
    left. destruct (fetch_settled_outcome c r) as (-> & -> & _). split; reflexivity.
  - injection Hstep as <-. left. split; reflexivity.
  - destruct (croppers (devices c) !! k0) as [cr|]; [|discriminate].
    destruct (_ || _); [discriminate|]. injection Hstep as <-. left. split; reflexivity.
Qed.

Lemma step_uploadsOnly (c c' : Component) (e : Event) :
  uploadsOnly c -> step c e = Some c' ->
  uploadsOnly c' /\ exists more, requests (outbox c') = (requests (outbox c) ++ more)%list.
Proof.
  intros (Hjobs & Hreqs) Hstep. unfold uploadsOnly.
  destruct (step_sends c c' e Hstep)
    as [(-> & ->) | [(-> & ->) | [(job & Hb & ->) | (job & bytes & Hb & ->)]]].
  - split; [split; assumption|]. exists []. symmetry. apply app_nil_r.
  - split; [split; [|assumption]|].
    + apply Forall_app. split; [assumption|]. constructor; [reflexivity | constructor].
    + exists []. symmetry. apply app_nil_r.
  - rewrite Hb in Hjobs. inversion Hjobs; subst.
    split; [split; assumption|]. exists []. symmetry. apply app_nil_r.
  - rewrite Hb in Hjobs. inversion Hjobs as [|? ? Hjob Hrest]; subst.
    split; [split; [assumption|]|].
    + apply Forall_app. split; [assumption|]. constructor; [|constructor].
      unfold uploadRequest. cbn [req_url req_method req_body standardJob job_mime].
      repeat split. exists bytes. reflexivity.
    + eexists. reflexivity.
Qed.

(** X9. Whatever events the component takes, it only ever asks for the one
    encoding (512 by 512, quality [high], [image/jpeg]) and only ever sends
    uploads: a POST to the prediction endpoint with the single form entry
    [file], filename [chessboard.jpg], a blob of type [image/jpeg]. If this
    holds of the pending encodings and the requests issued so far, it holds
    after any sequence of events, and the requests issued so far remain, in
    order, the first of those issued later. *)
Theorem uploads_only_invariant (events : list Event) (c c' : Component) :
  uploadsOnly c ->
  run events c = Some c' ->
  uploadsOnly c' /\ exists more, requests (outbox c') = (requests (outbox c) ++ more)%list.
Proof.
  revert c. induction events as [|e rest IH]; intros c Hinv Hrun; cbn [run] in Hrun.
  - injection Hrun as <-. split; [exact Hinv|]. exists []. symmetry. apply app_nil_r.
  - destruct (step c e) as [c1|] eqn:Hs; [|discriminate].
    destruct (step_uploadsOnly c c1 e Hinv Hs) as (Hinv1 & more1 & Hr1).
    destruct (IH c1 Hinv1 Hrun) as (Hinv' & more & Hr).
    split; [exact Hinv'|]. exists (more1 ++ more)%list. rewrite Hr, Hr1. symmetry. apply app_assoc.
Qed.

(** X9 on the crop card of the examples: a submit, its blob, a failed
    response, a reset. *)
Lemma uploads_only_invariant_witness :
  exists c',
    run [Click Submit None; BlobReady (Some [Byte.xff]); FetchSettled serverErrorResponse;
         Click TryAgain None] cropping = Some c'
    /\ uploadsOnly c'.
Proof.
  assert (Hrun : run [Click Submit None; BlobReady (Some [Byte.xff]);
                      FetchSettled serverErrorResponse; Click TryAgain None] cropping
                 = Some (default initial
                           (run [Click Submit None; BlobReady (Some [Byte.xff]);
                                 FetchSettled serverErrorResponse; Click TryAgain None]
                              cropping)))
    by (vm_compute; reflexivity).
  assert (Hinv : uploadsOnly cropping) by (split; constructor).
  eexists. split; [exact Hrun|].
  exact (proj1 (uploads_only_invariant _ cropping _ Hinv Hrun)).
Defined.

(** *** Streams *)

Lemma handleSubmit_devices_refs (c : Component) :
  devices (handleSubmit c) = devices c /\ refs (handleSubmit c) = refs c.
Proof.
  unfold handleSubmit. destruct (cropperRef (refs c)); [|split; reflexivity].
  destruct (getCroppedCanvas _ _ _); split; reflexivity.
Qed.

Lemma copyFenToClipboard_devices_refs (c : Component) :
  devices (copyFenToClipboard c) = devices c /\ refs (copyFenToClipboard c) = refs c.
Proof.
  unfold copyFenToClipboard. destruct (fen (hooks c)) as [v|]; [|split; reflexivity].
  destruct (truthy v); split; reflexivity.
Qed.

Lemma toBlob_callback_devices_refs (data : option (list Byte.byte)) (c : Component) :
  devices (toBlob_callback data c) = devices c /\ refs (toBlob_callback data c) = refs c.
Proof.
  unfold toBlob_callback. destruct (pendingBlob (outbox c)); [split; reflexivity|].
  destruct data; split; reflexivity.
Qed.

Lemma fetch_settled_devices_refs (r : FetchResult) (c : Component) :
  devices (fetch_settled r c) = devices c /\ refs (fetch_settled r c) = refs c.
Proof. rewrite fetch_settled_unfold. destruct (accepted r); split; reflexivity. Qed.

(** What one event does to the streams and to [streamRef]: nothing, or the
    release of the held stream, or one more stream, held or not. *)
Lemma step_streams (c c' : Component) (e : Event) :
  step c e = Some c' ->
  (streams (devices c') = streams (devices c) /\ streamRef (refs c') = streamRef (refs c))
  \/ (streams (devices c') = streams (devices (cleanupCamera c))
      /\ streamRef (refs c') = None)
  \/ (exists n, streams (devices c') = (streams (devices c) ++ [repeat Live n])%list
                /\ (streamRef (refs c') = streamRef (refs c)
                    \/ streamRef (refs c') = Some (length (streams (devices c))))).
Proof.
  intros Hstep.
  destruct e as [b frame| ntracks | | data | r | | k0]; unfold step in Hstep; cbn [react] in Hstep.
  - destruct (existsb _ _); [|discriminate]. apply shown_commit in Hstep as ->.
    rewrite commit_streams, commit_streamRef.
    assert (Hreset : streams (devices (handleReset c)) = streams (devices (cleanupCamera c))
                     /\ streamRef (refs (handleReset c)) = None).
    { rewrite handleReset_streams, handleReset_refs, cleanupCamera_streamRef.
      split; reflexivity. }
    destruct b; cbn [onClick].
    + (* Scan Chessboard *)
      right. left.
      change (streams (devices (requestCameraPermission c)))
        with (streams (devices (cleanupCamera c))).
      change (streamRef (refs (requestCameraPermission c)))
        with (streamRef (refs (cleanupCamera c))).
      rewrite cleanupCamera_streamRef. split; reflexivity.
    + right. left. exact Hreset.
    + (* Capture *)
      unfold handleCapture. destruct (videoRef (refs c)); [|left; split; reflexivity].
      destruct frame as [url|]; [|left; split; reflexivity].
      right. left. unfold seq. rewrite cleanupCamera_streamRef, !cleanupCamera_streams.
      split; reflexivity.
    + (* Retake *)
      right. left.
      change (streams (devices (handleRetake c)))
        with (streams (devices (cleanupCamera (setError None (setImageDataUrl None c))))).
      change (streamRef (refs (handleRetake c)))
        with (streamRef (refs (cleanupCamera (setError None (setImageDataUrl None c))))).
      rewrite cleanupCamera_streamRef, !cleanupCamera_streams. split; reflexivity.
    + left. destruct (handleSubmit_devices_refs c) as (-> & ->). split; reflexivity.
    + left. destruct (copyFenToClipboard_devices_refs c) as (-> & ->). split; reflexivity.
    + right. left. exact Hreset.
    + right. left. exact Hreset.
  - destruct (pendingGum (devices c)); [discriminate|]. apply shown_commit in Hstep as ->.
    rewrite commit_streams, commit_streamRef.
    right. right. exists ntracks. unfold getUserMedia_resolved. cbv zeta.
    destruct (videoRef _); (split; [reflexivity|]); [right | left]; reflexivity.
  - destruct (pendingGum (devices c)); [discriminate|]. apply shown_commit in Hstep as ->.
    rewrite commit_streams, commit_streamRef. left. split; reflexivity.
  - destruct (pendingBlob (outbox c)); [discriminate|]. apply shown_commit in Hstep as ->.
    rewrite commit_streams, commit_streamRef.
    left. destruct (toBlob_callback_devices_refs data c) as (-> & ->). split; reflexivity.
  - destruct (pendingFetch (outbox c)); [discriminate|]. apply shown_commit in Hstep as ->.
    rewrite commit_streams, commit_streamRef.
    left. destruct (fetch_settled_devices_refs r c) as (-> & ->). split; reflexivity.
  - injection Hstep as <-. left. split; reflexivity.
  - destruct (croppers (devices c) !! k0) as [cr|]; [|discriminate].
    destruct (_ || _); [discriminate|]. injection Hstep as <-. left. split; reflexivity.
Qed.

(** X10. A stream that [streamRef] does not hold is out of the component's
    reach: whatever events follow (resets, new camera requests, captures,
    submissions), its tracks stay exactly as they are and [streamRef] never
    comes to hold it. A stream that runs unheld runs for good. *)
Theorem unheld_stream_never_stopped
    (events : list Event) (c c' : Component) (sid : nat) (ms : MediaStream) :
  streams (devices c) !! sid = Some ms ->
  streamRef (refs c) <> Some sid ->
  run events c = Some c' ->
  streams (devices c') !! sid = Some ms /\ streamRef (refs c') <> Some sid.
Proof.
  revert c. induction events as [|e rest IH]; intros c Hms Hne Hrun; cbn [run] in Hrun.
  - injection Hrun as <-. split; assumption.
  - destruct (step c e) as [c1|] eqn:Hs; [|discriminate].
    assert (Hms1 : streams (devices c1) !! sid = Some ms
                   /\ streamRef (refs c1) <> Some sid).
    { destruct (step_streams c c1 e Hs) as [(Hst & Hr) | [(Hst & Hr) | (n & Hst & Hr)]];
        rewrite Hst.
      - rewrite Hr. split; assumption.
      - rewrite Hr. split; [|discriminate].
        rewrite cleanupCamera_streams. destruct (streamRef (refs c)) as [held|]; [|exact Hms].
        rewrite list_lookup_alter_ne by congruence. exact Hms.
      - split; [apply lookup_app_l_Some; exact Hms|].
        apply lookup_lt_Some in Hms. destruct Hr as [-> | ->]; [exact Hne|].
        intros [= <-]. lia. }
    destruct Hms1 as (Hms1 & Hne1). apply (IH c1 Hms1 Hne1 Hrun).
Qed.

(** X10 on the start card after a grant: a refused second request and a
    reset later, the first stream still runs. *)
Lemma unheld_stream_never_stopped_witness :
  exists c',
    run refuseAndReset leakedOnce = Some c'
    /\ streams (devices c') !! 0 = Some [Live].
Proof.
  assert (Hrun : run refuseAndReset leakedOnce
                 = Some (default initial (run refuseAndReset leakedOnce)))
    by (vm_compute; reflexivity).
  eexists. split; [exact Hrun|].
  refine (proj1 (unheld_stream_never_stopped refuseAndReset leakedOnce _ 0 [Live] _ _ Hrun)).
  - reflexivity.
  - discriminate.
Defined.

(** *** The answer to a camera request *)

Lemma effect_body_pendingGum (deps : AppState.t * option string) (c : Component) :
  pendingGum (devices (effect_body deps c)) = pendingGum (devices c).
Proof.
  unfold effect_body. destruct (_ && _); [destruct (negb _)|]; reflexivity.
Qed.

Lemma commit1_pendingGum (c : Component) :
  pendingGum (devices (commit1 c)) = pendingGum (devices c).
Proof.
  rewrite commit1_unfold. destruct (same_deps _ _); [reflexivity|].
  rewrite effect_body_pendingGum. fold (before_effect c).
  now destruct (before_effect_devices c) as (_ & _ & -> & _).
Qed.

Lemma commit_pendingGum (c : Component) :
  pendingGum (devices (commit c)) = pendingGum (devices c).
Proof. unfold commit, seq. now rewrite !commit1_pendingGum. Qed.

(** X11. When a pending camera request is refused, whatever card is shown,
    the component shows the error card with the camera message and the Try
    Again button, records the permission as denied and raises the one camera
    toast. It does not release anything: the streams and [streamRef] are as
    they were. *)
Theorem refused_camera_request_shows_error (c : Component) :
  pendingGum (devices c) <> 0 ->
  exists c',
    step c GetUserMediaRejected = Some c'
    /\ appState (hooks c') = AppState.Error
    /\ error (hooks c') = Some cameraErrorMessage
    /\ hasCameraPermission (hooks c') = Some false
    /\ fen (hooks c') = fen (hooks c)
    /\ view_content (renderContent c') = ErrorText (Some cameraErrorMessage)
    /\ view_buttons (renderContent c') = [TryAgain]
    /\ toasts (outbox c') = (toasts (outbox c) ++ [cameraErrorToast])%list
    /\ requests (outbox c') = requests (outbox c)
    /\ streams (devices c') = streams (devices c)
    /\ streamRef (refs c') = streamRef (refs c)
    /\ pendingGum (devices c') = pred (pendingGum (devices c)).
Proof.
  intros Hg. exists (commit (getUserMedia_rejected c)).
  split; [apply step_rejected, Hg|].
  assert (Hh : hooks (commit (getUserMedia_rejected c)) = hooks (getUserMedia_rejected c))
    by (apply commit_hooks; reflexivity).
  unfold renderContent.
  rewrite Hh, commit_outbox, commit_streams, commit_streamRef, commit_pendingGum.
  repeat split.
Qed.

(** X11 on the start card with one request pending. *)
Lemma refused_camera_request_shows_error_witness :
  exists c',
    step scanRequested GetUserMediaRejected = Some c'
    /\ appState (hooks c') = AppState.Error
    /\ toasts (outbox c') = [cameraErrorToast].
Proof.
  destruct (refused_camera_request_shows_error scanRequested)
    as (c' & Hs & Ha & _ & _ & _ & _ & _ & Ht & _); [discriminate|].
  exists c'. repeat split; assumption.
Defined.

Lemma commit_hooks_settled (c : Component) :
  same_deps (effectDeps c) (appState (hooks c), imageDataUrl (hooks c)) = true ->
  hooks (commit c) = hooks c.
Proof.
  intros H.
  assert (H1 : commit1 c = attach_refs c) by (rewrite commit1_unfold, H; reflexivity).
  unfold commit, seq. rewrite H1, commit1_unfold.
  change (effectDeps (attach_refs c)) with (effectDeps c).
  change (hooks (attach_refs c)) with (hooks c).
  rewrite H. reflexivity.
Qed.

(** X12. A camera request granted while no video element is in the
    document, on a component that a render has settled, changes the card
    shown in nothing: the state, the stored image, FEN and error stay, only
    the permission flag becomes true. The granted stream is added to the
    running ones and [streamRef] does not take it. *)
Theorem grant_without_video_element (c : Component) (ntracks : nat) :
  pendingGum (devices c) <> 0 ->
  videoRef (refs c) = None ->
  same_deps (effectDeps c) (appState (hooks c), imageDataUrl (hooks c)) = true ->
  exists c',
    step c (GetUserMediaResolved ntracks) = Some c'
    /\ hooks c' = hooks (setHasCameraPermission (Some true) c)
    /\ view_title (renderContent c') = view_title (renderContent c)
    /\ view_buttons (renderContent c') = view_buttons (renderContent c)
    /\ streams (devices c') = (streams (devices c) ++ [repeat Live ntracks])%list
    /\ streamRef (refs c') = streamRef (refs c)
    /\ outbox c' = outbox c
    /\ pendingGum (devices c') = pred (pendingGum (devices c)).
Proof.
  intros Hg Hv Hd. exists (commit (getUserMedia_resolved ntracks c)).
  split.
  { apply (step_resolved _ _ Hg). intros Hc.
    rewrite (getUserMedia_resolved_no_video ntracks c Hv). exact Hc. }
  rewrite (getUserMedia_resolved_no_video ntracks c Hv).
  remember ((set_pendingGum (pred (pendingGum (devices c)))
             >> set_streams (streams (devices c) ++ [repeat Live ntracks])
             >> setHasCameraPermission (Some true)) c) as h eqn:Eh.
  assert (Hh : hooks (commit h) = hooks (setHasCameraPermission (Some true) c)).
  { rewrite commit_hooks_settled; subst h; [reflexivity | exact Hd]. }
  unfold renderContent.
  rewrite Hh, commit_outbox, commit_streams, commit_streamRef, commit_pendingGum.
  subst h. cbn [setHasCameraPermission with_hooks hooks appState].
  destruct (appState (hooks c)); repeat split.
Qed.

(** X12 on the start card with one request pending. *)
Lemma grant_without_video_element_witness :
  exists c',
    step scanRequested (GetUserMediaResolved 1) = Some c'
    /\ appState (hooks c') = AppState.Idle
    /\ streams (devices c') = [[Live]]
    /\ streamRef (refs c') = None.
Proof.
  destruct (grant_without_video_element scanRequested 1)
    as (c' & Hs & Hh & _ & _ & Hst & Hr & _); try reflexivity; try discriminate.
  exists c'. rewrite Hh, Hst, Hr. repeat split; assumption.
Defined.

Lemma getUserMedia_resolved_video (ntracks : nat) (c : Component) (v : HTMLVideoElement) :
  videoRef (refs c) = Some v ->
  getUserMedia_resolved ntracks c =
  (set_pendingGum (pred (pendingGum (devices c)))
   >> set_streams (streams (devices c) ++ [repeat Live ntracks])
   >> setHasCameraPermission (Some true)
   >> set_videoRef (Some {| srcObject := Some (length (streams (devices c))) |})
   >> set_streamRef (Some (length (streams (devices c))))
   >> setAppState AppState.CameraOpen) c.
Proof.
  intros Hv. unfold getUserMedia_resolved. cbv zeta. unfold seq.
  change (refs (setHasCameraPermission (Some true)
                  (set_streams (streams (devices c) ++ [repeat Live ntracks])
                     (set_pendingGum (pred (pendingGum (devices c))) c))))
    with (refs c).
  rewrite Hv. reflexivity.
Qed.

Lemma attach_refs_camera (c : Component) (element : HTMLVideoElement) :
  appState (hooks c) = AppState.CameraOpen ->
  videoRef (refs c) = Some element ->
  videoRef (refs (attach_refs c)) = Some element.
Proof.
  open_component c. cbn [hooks appState refs videoRef]. intros -> ->. reflexivity.
Qed.

Lemma commit1_videoRef_camera (c : Component) (element : HTMLVideoElement) :
  appState (hooks c) = AppState.CameraOpen ->
  videoRef (refs c) = Some element ->
  videoRef (refs (commit1 c)) = Some element.
Proof.
  intros Ha Hv. rewrite commit1_unfold. fold (before_effect c).
  destruct (same_deps _ _); [apply (attach_refs_camera c element Ha Hv)|].
  rewrite effect_body_videoRef, before_effect_refs. apply (attach_refs_camera c element Ha Hv).
Qed.

(** X13. A camera request granted while the video element is in the
    document opens the camera: the state becomes [CameraOpen] with the
    permission flag true, the camera card offers Close and Capture, and the
    granted stream, all its tracks running, is both held in [streamRef] and
    shown by the video element. The streams that existed before are left as
    they were: a stream held until then is replaced, not stopped. *)
Theorem grant_with_video_element
    (c : Component) (v : HTMLVideoElement) (ntracks : nat) :
  pendingGum (devices c) <> 0 ->
  videoRef (refs c) = Some v ->
  exists c',
    step c (GetUserMediaResolved ntracks) = Some c'
    /\ appState (hooks c') = AppState.CameraOpen
    /\ hasCameraPermission (hooks c') = Some true
    /\ view_buttons (renderContent c') = [Close; Capture]
    /\ view_alert (renderContent c') = false
    /\ streams (devices c') = (streams (devices c) ++ [repeat Live ntracks])%list
    /\ streams (devices c') !! length (streams (devices c)) = Some (repeat Live ntracks)
    /\ streamRef (refs c') = Some (length (streams (devices c)))
    /\ videoRef (refs c') = Some {| srcObject := Some (length (streams (devices c))) |}.
Proof.
  intros Hg Hv. exists (commit (getUserMedia_resolved ntracks c)).
  split.
  { apply (step_resolved _ _ Hg). intros _.
    rewrite (getUserMedia_resolved_video ntracks c v Hv). reflexivity. }
  rewrite (getUserMedia_resolved_video ntracks c v Hv).
  remember ((set_pendingGum (pred (pendingGum (devices c)))
             >> set_streams (streams (devices c) ++ [repeat Live ntracks])
             >> setHasCameraPermission (Some true)
             >> set_videoRef (Some {| srcObject := Some (length (streams (devices c))) |})
             >> set_streamRef (Some (length (streams (devices c))))
             >> setAppState AppState.CameraOpen) c) as h eqn:Eh.
  assert (Hah : appState (hooks h) = AppState.CameraOpen) by (subst h; reflexivity).
  assert (Hph : hasCameraPermission (hooks h) = Some true) by (subst h; reflexivity).
  assert (Hsh : streams (devices h) = (streams (devices c) ++ [repeat Live ntracks])%list)
    by (subst h; reflexivity).
  assert (Hrh : streamRef (refs h) = Some (length (streams (devices c))))
    by (subst h; reflexivity).
  assert (Hvh : videoRef (refs h) = Some {| srcObject := Some (length (streams (devices c))) |})
    by (subst h; reflexivity).
  clear Eh.
  assert (Hh : hooks (commit h) = hooks h) by (apply commit_hooks; rewrite Hah; reflexivity).
  assert (Hvc : videoRef (refs (commit h))
                = Some {| srcObject := Some (length (streams (devices c))) |}).
  { unfold commit, seq. apply commit1_videoRef_camera.
    - rewrite commit1_hooks by (rewrite Hah; reflexivity). exact Hah.
    - apply commit1_videoRef_camera; assumption. }
  unfold renderContent.
  rewrite Hh, Hvc, commit_streams, commit_streamRef, Hah, Hph, Hsh, Hrh.
  cbn [view_buttons view_alert]. repeat split.
  apply list_lookup_middle. reflexivity.
Qed.

(** X13 on the camera card with a second request pending: the second
    stream is held and the first still runs. *)
Lemma grant_with_video_element_witness :
  exists c',
    step cameraOpenedPending (GetUserMediaResolved 1) = Some c'
    /\ streamRef (refs c') = Some 1
    /\ streams (devices c') = [[Live]; [Live]].
Proof.
  destruct (grant_with_video_element cameraOpenedPending {| srcObject := Some 0 |} 1)
    as (c' & Hs & _ & _ & _ & _ & Hst & _ & Hr & _); try reflexivity; try discriminate.
  exists c'. rewrite Hst, Hr. repeat split; assumption.
Defined.

(** X1 after a click on Scan Chessboard and the grant of the request. *)
Lemma camera_card_unreachable_witness :
  exists c,
    run [Click ScanChessboard None; GetUserMediaResolved 1] initial = Some c
    /\ startOrError c.
Proof.
  assert (Hrun : run [Click ScanChessboard None; GetUserMediaResolved 1] initial
                 = Some leakedOnce) by (vm_compute; reflexivity).
  exists leakedOnce. split; [exact Hrun|].
  exact (camera_card_unreachable _ _ Hrun).
Defined.

(** * Configurations on screen *)

(** A render that succeeds leaves a card that can be rendered: the effect
    changes the state on one path only, to [Error]. *)
Lemma commit1_renders (c : Component) : renders c = true -> renders (commit1 c) = true.
Proof.
  intros H. rewrite commit1_unfold. destruct (same_deps _ _); [exact H|].
  fold (before_effect c). unfold effect_body.
  destruct (_ && _); [destruct (negb _)|]; try reflexivity;
    unfold renders; cbn [seq with_effect set_croppers set_cropperRef with_refs with_devices hooks];
    rewrite before_effect_hooks; exact H.
Qed.

Lemma commit_renders (c : Component) : renders c = true -> renders (commit c) = true.
Proof. intros H. unfold commit, seq. now apply commit1_renders, commit1_renders. Qed.

(** Every configuration [step] returns from one that can be rendered can
    be rendered: the guard of [rerender] is met all along a run. *)
Lemma step_renders (c c' : Component) (e : Event) :
  renders c = true -> step c e = Some c' -> renders c' = true.
Proof.
  intros Hc Hstep.
  assert (G : forall h, match rerender c h with Shown x => Some x | Refused | Removed => None end
                        = Some c' -> renders c' = true).
  { intros h. unfold rerender. rewrite Hc. destruct (renders h) eqn:Hh; [|discriminate].
    intros [= <-]. apply commit_renders, Hh. }
  destruct e as [b frame| ntracks | | data | r | | k0];
    unfold step in Hstep; cbn [react] in Hstep.
  - destruct (existsb _ _); [|discriminate]. apply (G _ Hstep).
  - destruct (pendingGum (devices c)); [discriminate|]. apply (G _ Hstep).
  - destruct (pendingGum (devices c)); [discriminate|]. apply (G _ Hstep).
  - destruct (pendingBlob (outbox c)); [discriminate|]. apply (G _ Hstep).
  - destruct (pendingFetch (outbox c)); [discriminate|]. apply (G _ Hstep).
  - injection Hstep as <-. exact Hc.
  - destruct (croppers (devices c) !! k0) as [cr|]; [|discriminate].
    destruct (_ || _); [discriminate|]. injection Hstep as <-. exact Hc.
Qed.

Lemma run_renders (events : list Event) (c c' : Component) :
  renders c = true -> run events c = Some c' -> renders c' = true.
Proof.
  revert c. induction events as [|e rest IH]; intros c Hc Hrun; cbn [run] in Hrun.
  - injection Hrun as <-. exact Hc.
  - destruct (step c e) as [c1|] eqn:Hs; [|discriminate].
    apply (IH c1); [apply (step_renders c c1 e Hc Hs) | exact Hrun].
Qed.

(** * Runs of the mounted component *)



(** ** C10: what a reset leaves running *)

(** C10 fails on a run of the mounted component. A camera request is
    granted: its stream runs, and [streamRef] does not hold it. A second
    request is refused, which shows the error card, and Try Again calls
    [handleReset]. The five state cells are then at their initial values and
    [streamRef] is null, but the granted stream still has its track running:
    [cleanupCamera] stops the stream in [streamRef] only. *)
Theorem reset_leaves_granted_stream_running :
  exists c1 c2,
    run (firstn 4 grantRefuseReset) initial = Some c1
    /\ appState (hooks c1) = AppState.Error
    /\ streams (devices c1) = [[Live]]
    /\ step c1 (Click TryAgain None) = Some c2
    /\ c2 = commit (handleReset c1)
    /\ run grantRefuseReset initial = Some c2
    /\ hooks c2 = hooks initial
    /\ streamRef (refs c2) = None
    /\ streams (devices c2) = [[Live]]
    /\ liveStreams c2 = 1.
Proof.
  let v1 := eval vm_compute in (default initial (run (firstn 4 grantRefuseReset) initial)) in
  let v2 := eval vm_compute in (default initial (run grantRefuseReset initial)) in
  exists v1, v2.
  vm_compute. repeat split.
Qed.

(** ** C8: every entry into Error raises one toast *)






(** ** C3: leaving the camera card and the crop card *)






(** * The image a submission encodes *)




(** ** C7: the crop is rendered at 512 by 512 *)


